(** * MarketPredictor (ml_model.py): a shallow embedding and its properties

    The predictor keeps its records in one JSON file, refits two linear
    regressions after every mutation and answers forecasts from the fitted
    parameters.  The embedding follows the Python text method by method:

    - numbers (Python floats) are idealised as rationals [Q]; the module
      [Float64] writes the forecast methods again in float64 arithmetic,
      rounding every operation to the nearest float, where an overflowing
      mean makes a forecast fail;
    - the data file, the disk and the clock are fields of the state;
    - the [self.*] attributes are fields of the same state;
    - every method is a computation in a state-and-exception monad, so that
      [try]/[except] blocks and exceptions that escape a method are visible;
    - scikit-learn's fitting routines are not part of the repository: they
      are a record of functions ([Sklearn]) over which every theorem is
      quantified.  What the fitted objects do with their parameters
      ([transform], [predict]) is written out;
    - [print] calls only write to standard output and are left out;
    - of app.py, the analytics view, the handler that feeds the predictor
      and the two tables of weather codes are embedded; its other routes
      only call the web framework, the database and the PDF library. *)

From Stdlib Require Import String Ascii DecimalString ZArith NArith QArith Qround Qabs Bool Lia Lqa Permutation Sorted List.
Import ListNotations.

Local Open Scope Z_scope.

(** ** Exceptions and results *)

Inductive exn : Type :=
| OSError (msg : string)
| OverflowError (msg : string)
| ValueError (msg : string)
| NotFittedError (msg : string)
| IndexError (msg : string)
| LibraryError (msg : string).

(** [str(e)] *)
Definition str (e : exn) : string :=
  match e with
  | OSError m | OverflowError m | ValueError m
  | NotFittedError m | IndexError m | LibraryError m => m
  end.

Inductive res (A : Type) : Type :=
| Ok (a : A)
| Raise (e : exn).
Arguments Ok {A} a.
Arguments Raise {A} e.

Definition is_ok {A} (r : res A) : bool :=
  match r with Ok _ => true | Raise _ => false end.

(** ** Python numbers and list helpers *)

Definition len {A} (l : list A) : Z := Z.of_nat (length l).

(** [l[-k:]] for [0 < k <= len(l)] (and the whole list for [k = 0], as
    [l[-0:]] is [l[0:]]). *)
Definition last_k {A} (k : Z) (l : list A) : list A :=
  if k =? 0 then l else skipn (length l - Z.to_nat k) l.

(** [l[:limit]], negative limits counting from the end. *)
Definition slice_to {A} (limit : Z) (l : list A) : list A :=
  if 0 <=? limit then firstn (Z.to_nat limit) l
  else firstn (length l - Z.to_nat (- limit)) l.

(** [n] consecutive integers from [start]. *)
Fixpoint count_from (start : Z) (n : nat) : list Z :=
  match n with
  | O => []
  | S n' => start :: count_from (start + 1) n'
  end.

(** [range(1, periods + 1)] *)
Definition range1 (periods : Z) : list Z := count_from 1 (Z.to_nat periods).

Definition Qsum (l : list Q) : Q := fold_left Qplus l 0%Q.

(** [np.mean] of a non-empty list, [sum(l) / len(l)]. *)
Definition np_mean (l : list Q) : Q := (Qsum l / inject_Z (len l))%Q.

(** [max(0, x)]: Python returns the second argument only when it is
    strictly greater than the first. *)
Definition max0 (x : Q) : Q := if Qle_bool x 0 then 0%Q else x.

(** Rounding to the nearest integer, ties to even. *)
Definition round_half_even (q : Q) : Z :=
  let f := Qfloor q in
  match ((q - inject_Z f) ?= (1 # 2))%Q with
  | Lt => f
  | Gt => f + 1
  | Eq => if Z.even f then f else f + 1
  end.

(** [round(x, ndigits)] *)
Definition round (x : Q) (ndigits : positive) : Q :=
  let scale := Pos.pow 10 ndigits in
  Qmake (round_half_even (x * inject_Z (Zpos scale))) scale.

(** ** datetime

    A [datetime] is a proleptic Gregorian day number ([date.toordinal()],
    1 for 0001-01-01 up to 3652059 for 9999-12-31) and the microsecond
    within that day. *)

Module Datetime.

Definition MAXORDINAL : Z := 3652059.
Definition MAXDELTADAYS : Z := 999999999.

Record datetime : Type := { toordinal : Z; microsecond_of_day : Z }.

(** [d + timedelta(days=k)]: building the timedelta fails beyond a billion
    days, the sum fails outside years 1..9999. *)
Definition add_days (d : datetime) (k : Z) : res datetime :=
  if MAXDELTADAYS <? Z.abs k then
    Raise (OverflowError "days; must have magnitude <= 999999999")
  else
    let o := toordinal d + k in
    if (1 <=? o) && (o <=? MAXORDINAL) then
      Ok {| toordinal := o; microsecond_of_day := microsecond_of_day d |}
    else Raise (OverflowError "date value out of range").

(** Year, month and day of a day number. *)
Definition ymd (o : Z) : Z * Z * Z :=
  let z := o + 305 in
  let era := z / 146097 in
  let doe := z mod 146097 in
  let yoe := (doe - doe / 1460 + doe / 36524 - doe / 146096) / 365 in
  let doy := doe - (365 * yoe + yoe / 4 - yoe / 100) in
  let mp := (5 * doy + 2) / 153 in
  let d := doy - (153 * mp + 2) / 5 + 1 in
  let m := if mp <? 10 then mp + 3 else mp - 9 in
  let y := yoe + era * 400 + (if m <=? 2 then 1 else 0) in
  (y, m, d).

Definition digit (n : Z) : ascii := ascii_of_nat (48 + Z.to_nat (n mod 10)).

(** [n] in decimal on exactly [w] digits. *)
Fixpoint pad (w : nat) (n : Z) : string :=
  match w with
  | O => EmptyString
  | S w' => (pad w' (n / 10) ++ String (digit n) EmptyString)%string
  end.

(** [strftime('%Y-%m-%d')] *)
Definition strftime_Ymd (d : datetime) : string :=
  let '(y, m, dd) := ymd (toordinal d) in
  (pad 4 y ++ "-" ++ pad 2 m ++ "-" ++ pad 2 dd)%string.

(** [isoformat()]: the fraction is left out when it is zero. *)
Definition isoformat (d : datetime) : string :=
  let us := microsecond_of_day d in
  let secs := us / 1000000 in
  let frac := us mod 1000000 in
  (strftime_Ymd d ++ "T" ++ pad 2 (secs / 3600) ++ ":"
     ++ pad 2 ((secs / 60) mod 60) ++ ":" ++ pad 2 (secs mod 60)
     ++ (if (frac =? 0)%Z then "" else "." ++ pad 6 frac))%string.

End Datetime.
Import Datetime.

(** ** scikit-learn objects

    The parameters a fitted object holds, and what it computes from them.
    Both check the number of features of their input. *)

Record Scaler : Type := { mean_ : list Q; scale_ : list Q }.
Record LinearRegression : Type := { coef_ : list Q; intercept_ : Q }.

Definition n_features_in (sc : Scaler) : nat := length (mean_ sc).

Fixpoint scale_row (x mean scale : list Q) : list Q :=
  match x, mean, scale with
  | xi :: x', mi :: mean', si :: scale' =>
      ((xi - mi) / si)%Q :: scale_row x' mean' scale'
  | _, _, _ => []
  end.

Fixpoint dot (a b : list Q) : Q :=
  match a, b with
  | ai :: a', bi :: b' => (ai * bi + dot a' b')%Q
  | _, _ => 0%Q
  end.

Fixpoint map_res {A B} (f : A -> res B) (l : list A) : res (list B) :=
  match l with
  | [] => Ok []
  | a :: l' =>
      match f a with
      | Raise e => Raise e
      | Ok b => match map_res f l' with
                | Raise e => Raise e
                | Ok bs => Ok (b :: bs)
                end
      end
  end.

(** [StandardScaler.transform] *)
Definition transform (sc : option Scaler) (X : list (list Q))
  : res (list (list Q)) :=
  match sc with
  | None => Raise (NotFittedError "This StandardScaler instance is not fitted yet.")
  | Some sc =>
      map_res (fun x =>
        if (length x =? n_features_in sc)%nat
           && (length (scale_ sc) =? n_features_in sc)%nat
        then Ok (scale_row x (mean_ sc) (scale_ sc))
        else Raise (ValueError "X has a different number of features than StandardScaler is expecting."))
      X
  end.

(** [LinearRegression.predict] *)
Definition predict (m : option LinearRegression) (X : list (list Q))
  : res (list Q) :=
  match m with
  | None => Raise (NotFittedError "This LinearRegression instance is not fitted yet.")
  | Some m =>
      map_res (fun x =>
        if (length x =? length (coef_ m))%nat
        then Ok (dot x (coef_ m) + intercept_ m)%Q
        else Raise (ValueError "X has a different number of features than LinearRegression is expecting."))
      X
  end.

(** The routines of the library whose results the repository does not
    determine: fitting a scaler, the seeded hold-out split, fitting the
    regression, and the two diagnostic metrics.  Each may raise. *)
Record Sklearn : Type := {
  scaler_fit : list (list Q) -> res Scaler;
  train_test_split :
    list (list Q) -> list Q ->
    res (list (list Q) * list (list Q) * list Q * list Q);
  linreg_fit : list (list Q) -> list Q -> res LinearRegression;
  mean_squared_error : list Q -> list Q -> res Q;
  r2_score : list Q -> list Q -> res Q
}.

(** ** Records, the data file and the predictor's state *)

Record Row : Type := {
  user_id : Z;
  market_price : Q;
  harvest_amount : Q;
  total_cost : Q;
  total_revenue : Q;
  net_profit : Q;
  timestamp : string
}.

(** [market_data.json]: absent, present but unreadable as JSON, or holding a
    list of records. *)
Inductive File : Type :=
| Missing
| Unreadable
| Json (data : list Row).

(** What the next [open(.., 'w')] and write will meet. *)
Inductive Disk : Type :=
| Writable
| ReadOnly   (* open fails, the file is left as it is *)
| NoSpace.   (* open truncates, the write fails *)

Record State : Type := {
  data_file : File;
  disk : Disk;
  clock : datetime;
  price_model : option LinearRegression;
  profit_model : option LinearRegression;
  price_scaler : option Scaler;
  profit_scaler : option Scaler;
  price_model_trained : bool;
  profit_model_trained : bool
}.

(** [MarketPredictor()] in a given environment. *)
Definition init (f : File) (d : Disk) (t : datetime) : State :=
  {| data_file := f; disk := d; clock := t;
     price_model := None; profit_model := None;
     price_scaler := None; profit_scaler := None;
     price_model_trained := false; profit_model_trained := false |}.

Definition set_data_file (f : File) (s : State) : State :=
  {| data_file := f; disk := disk s; clock := clock s;
     price_model := price_model s; profit_model := profit_model s;
     price_scaler := price_scaler s; profit_scaler := profit_scaler s;
     price_model_trained := price_model_trained s;
     profit_model_trained := profit_model_trained s |}.

Definition set_price_model (m : option LinearRegression) (s : State) : State :=
  {| data_file := data_file s; disk := disk s; clock := clock s;
     price_model := m; profit_model := profit_model s;
     price_scaler := price_scaler s; profit_scaler := profit_scaler s;
     price_model_trained := price_model_trained s;
     profit_model_trained := profit_model_trained s |}.

Definition set_profit_model (m : option LinearRegression) (s : State) : State :=
  {| data_file := data_file s; disk := disk s; clock := clock s;
     price_model := price_model s; profit_model := m;
     price_scaler := price_scaler s; profit_scaler := profit_scaler s;
     price_model_trained := price_model_trained s;
     profit_model_trained := profit_model_trained s |}.

Definition set_price_scaler (sc : option Scaler) (s : State) : State :=
  {| data_file := data_file s; disk := disk s; clock := clock s;
     price_model := price_model s; profit_model := profit_model s;
     price_scaler := sc; profit_scaler := profit_scaler s;
     price_model_trained := price_model_trained s;
     profit_model_trained := profit_model_trained s |}.

Definition set_profit_scaler (sc : option Scaler) (s : State) : State :=
  {| data_file := data_file s; disk := disk s; clock := clock s;
     price_model := price_model s; profit_model := profit_model s;
     price_scaler := price_scaler s; profit_scaler := sc;
     price_model_trained := price_model_trained s;
     profit_model_trained := profit_model_trained s |}.

Definition set_price_model_trained (b : bool) (s : State) : State :=
  {| data_file := data_file s; disk := disk s; clock := clock s;
     price_model := price_model s; profit_model := profit_model s;
     price_scaler := price_scaler s; profit_scaler := profit_scaler s;
     price_model_trained := b;
     profit_model_trained := profit_model_trained s |}.

Definition set_profit_model_trained (b : bool) (s : State) : State :=
  {| data_file := data_file s; disk := disk s; clock := clock s;
     price_model := price_model s; profit_model := profit_model s;
     price_scaler := price_scaler s; profit_scaler := profit_scaler s;
     price_model_trained := price_model_trained s;
     profit_model_trained := b |}.

(** ** The monad of methods: state that survives a raised exception *)

Definition M (A : Type) : Type := State -> res A * State.

Definition ret {A} (a : A) : M A := fun s => (Ok a, s).

Definition bind {A B} (m : M A) (k : A -> M B) : M B :=
  fun s => match m s with
           | (Ok a, s') => k a s'
           | (Raise e, s') => (Raise e, s')
           end.

Definition lift {A} (r : res A) : M A := fun s => (r, s).

Definition gets {A} (f : State -> A) : M A := fun s => (Ok (f s), s).

Definition modify (f : State -> State) : M unit := fun s => (Ok tt, f s).

(** [try: body except Exception as e: handler(e)] *)
Definition try_except {A} (body : M A) (handler : exn -> M A) : M A :=
  fun s => match body s with
           | (Ok a, s') => (Ok a, s')
           | (Raise e, s') => handler e s'
           end.

Declare Scope monad_scope.
Delimit Scope monad_scope with monad.
Notation "x <- m ;; k" := (bind m (fun x => k))
  (at level 61, m at next level, right associativity) : monad_scope.
Notation "' p <- m ;; k" := (bind m (fun x => let p := x in k))
  (at level 61, p pattern, m at next level, right associativity) : monad_scope.
Notation "m ;; k" := (bind m (fun _ => k))
  (at level 61, right associativity) : monad_scope.
Local Open Scope monad_scope.

(** A [for] loop whose body appends one element per round to a list that
    starts empty; a round that raises ends the loop. *)
Fixpoint for_each {A B} (l : list A) (body : A -> M B) : M (list B) :=
  match l with
  | [] => ret []
  | a :: l' => b <- body a ;; bs <- for_each l' body ;; ret (b :: bs)
  end.

(** ** load_data, save_data *)

Definition load_data : M (list Row) :=
  fun s => match data_file s with
           | Missing => (Ok [], s)       (* the file does not exist *)
           | Unreadable => (Ok [], s)    (* except: return [] *)
           | Json data => (Ok data, s)
           end.

Definition save_data (data : list Row) : M unit :=
  fun s => match disk s with
           | Writable => (Ok tt, set_data_file (Json data) s)
           | ReadOnly => (Raise (OSError "Permission denied"), s)
           | NoSpace =>
               (Raise (OSError "No space left on device"),
                set_data_file Unreadable s)
           end.

(** ** What the methods return *)

Record PricePoint : Type := { date : string; predicted_price : Q }.
Record ProfitPoint : Type := { profit_date : string; predicted_profit : Q }.

Record HistoryPoint : Type := {
  month : string;
  hist_market_price : Q;
  hist_net_profit : Q
}.

(** One entry of [model_performance]. *)
Inductive Performance : Type :=
| Metrics (mse r2 : Q)
| MetricsError (error : string).

(** The dictionary of [get_model_stats]; keys that a shape lacks are [None]. *)
Record Stats : Type := {
  total_data_points : Z;
  model_trained : bool;
  message : option string;
  avg_market_price : Q;
  avg_profit : Q;
  total_users : Z;
  model_type : string;
  training_status : string;
  model_performance : option (option Performance * option Performance);
  date_range : option (string * string)
}.

(** [str(n)] for an integer. *)
Definition str_int (n : Z) : string := NilZero.string_of_int (Z.to_int n).

(** [sorted(data, key=timestamp, reverse=True)]: stable, later timestamps
    first, equal timestamps in their stored order. *)
Fixpoint insert_desc (x : Row) (l : list Row) : list Row :=
  match l with
  | [] => [x]
  | y :: l' =>
      if String.ltb (timestamp x) (timestamp y)
      then y :: insert_desc x l'
      else x :: y :: l'
  end.

Definition sorted_desc (data : list Row) : list Row :=
  fold_right insert_desc [] data.

(** [min(l)] and [max(l)] on strings; both raise on an empty list. *)
Definition py_min (l : list string) : res string :=
  match l with
  | [] => Raise (ValueError "min() arg is an empty sequence")
  | a :: l' => Ok (fold_left (fun m x => if String.ltb x m then x else m) l' a)
  end.
Definition py_max (l : list string) : res string :=
  match l with
  | [] => Raise (ValueError "max() arg is an empty sequence")
  | a :: l' => Ok (fold_left (fun m x => if String.ltb m x then x else m) l' a)
  end.

(** [for i, item in enumerate(l)] building a list. *)
Fixpoint enumerate_from {A} (i : Z) (l : list A) : list (Z * A) :=
  match l with
  | [] => []
  | a :: l' => (i, a) :: enumerate_from (i + 1) l'
  end.

Definition filter_user (user : option Z) (data : list Row) : list Row :=
  match user with
  | None => data
  | Some u => filter (fun item => user_id item =? u) data
  end.

Definition price_features_of (data : list Row) : list (list Q) :=
  map (fun item => [harvest_amount item; total_cost item]) data.
Definition profit_features_of (data : list Row) : list (list Q) :=
  map (fun item => [market_price item; harvest_amount item; total_cost item])
      data.

Definition NOT_TRAINED : string :=
  "Model not trained. Need at least 3 data points.".
Definition NO_DATA : string := "No data available for prediction.".

(** ** The methods of MarketPredictor *)

Section MarketPredictor.

Variable lib : Sklearn.

Definition mark_untrained : M unit :=
  modify (set_price_model_trained false) ;;
  modify (set_profit_model_trained false).

(** The body of the [try] block of [_train_models]. *)
Definition train_body (data : list Row) : M unit :=
  let price_features := price_features_of data in
  let price_targets := map market_price data in
  let profit_features := profit_features_of data in
  let profit_targets := map net_profit data in
  (if 3 <=? len price_features then
     sc <- lift (scaler_fit lib price_features) ;;
     modify (set_price_scaler (Some sc)) ;;
     price_features_scaled <- lift (transform (Some sc) price_features) ;;
     split <- lift (train_test_split lib price_features_scaled price_targets) ;;
     let '(X_train, X_test, y_train, y_test) := split in
     m <- lift (linreg_fit lib X_train y_train) ;;
     modify (set_price_model (Some m)) ;;
     y_pred <- lift (predict (Some m) X_test) ;;
     _ <- lift (mean_squared_error lib y_test y_pred) ;;
     _ <- lift (r2_score lib y_test y_pred) ;;
     modify (set_price_model_trained true)
   else ret tt) ;;
  (if 3 <=? len profit_features then
     sc <- lift (scaler_fit lib profit_features) ;;
     modify (set_profit_scaler (Some sc)) ;;
     profit_features_scaled <- lift (transform (Some sc) profit_features) ;;
     split <- lift (train_test_split lib profit_features_scaled profit_targets) ;;
     let '(X_train, X_test, y_train, y_test) := split in
     m <- lift (linreg_fit lib X_train y_train) ;;
     modify (set_profit_model (Some m)) ;;
     y_pred <- lift (predict (Some m) X_test) ;;
     _ <- lift (mean_squared_error lib y_test y_pred) ;;
     _ <- lift (r2_score lib y_test y_pred) ;;
     modify (set_profit_model_trained true)
   else ret tt).

Definition _train_models : M unit :=
  data <- load_data ;;
  if len data <? 3 then mark_untrained
  else try_except (train_body data) (fun e => mark_untrained).

Definition add_user_data (user : Z) (market_price_ harvest_amount_ total_cost_
                          total_revenue_ net_profit_ : Q) : M (list Row) :=
  data <- load_data ;;
  t <- gets clock ;;
  let new_row := {| user_id := user;
                    market_price := market_price_;
                    harvest_amount := harvest_amount_;
                    total_cost := total_cost_;
                    total_revenue := total_revenue_;
                    net_profit := net_profit_;
                    timestamp := isoformat t |} in
  let data := data ++ [new_row] in
  save_data data ;;
  _train_models ;;
  ret data.

Definition clear_user_data (user : Z) : M unit :=
  data <- load_data ;;
  let data := filter (fun item => negb (user_id item =? user)) data in
  save_data data ;;
  _train_models.

Definition first_of (preds : list Q) : M Q :=
  match preds with
  | p :: _ => ret p
  | [] => lift (Raise (IndexError "index 0 is out of bounds"))
  end.

Definition predict_future_prices (periods : Z)
  : M (option (list PricePoint) * option string) :=
  trained <- gets price_model_trained ;;
  if negb trained then ret (None, Some NOT_TRAINED)
  else
    try_except
      (data <- load_data ;;
       if len data =? 0 then ret (None, Some NO_DATA)
       else
         let recent_data := last_k (Z.min 5 (len data)) data in
         current_date <- gets clock ;;
         future_predictions <-
           for_each (range1 periods) (fun i =>
             future_date <- lift (add_days current_date (i * 30)) ;;
             let avg_harvest := np_mean (map harvest_amount recent_data) in
             let avg_cost := np_mean (map total_cost recent_data) in
             let features := [[avg_harvest; avg_cost]] in
             scaler <- gets price_scaler ;;
             features_scaled <- lift (transform scaler features) ;;
             model <- gets price_model ;;
             preds <- lift (predict model features_scaled) ;;
             predicted_price <- first_of preds ;;
             let predicted_price := max0 predicted_price in
             ret {| date := strftime_Ymd future_date;
                    predicted_price := round predicted_price 2 |}) ;;
         ret (Some future_predictions, None))
      (fun e =>
         ret (None, Some ("Error generating price predictions: " ++ str e)%string)).

Definition predict_future_profits (periods : Z)
  : M (option (list ProfitPoint) * option string) :=
  trained <- gets profit_model_trained ;;
  if negb trained then ret (None, Some NOT_TRAINED)
  else
    try_except
      (data <- load_data ;;
       if len data =? 0 then ret (None, Some NO_DATA)
       else
         let recent_data := last_k (Z.min 5 (len data)) data in
         current_date <- gets clock ;;
         future_predictions <-
           for_each (range1 periods) (fun i =>
             future_date <- lift (add_days current_date (i * 30)) ;;
             let avg_price := np_mean (map market_price recent_data) in
             let avg_harvest := np_mean (map harvest_amount recent_data) in
             let avg_cost := np_mean (map total_cost recent_data) in
             let features := [[avg_price; avg_harvest; avg_cost]] in
             scaler <- gets profit_scaler ;;
             features_scaled <- lift (transform scaler features) ;;
             model <- gets profit_model ;;
             preds <- lift (predict model features_scaled) ;;
             predicted_profit <- first_of preds ;;
             ret {| profit_date := strftime_Ymd future_date;
                    predicted_profit := round predicted_profit 2 |}) ;;
         ret (Some future_predictions, None))
      (fun e =>
         ret (None, Some ("Error generating profit predictions: " ++ str e)%string)).

Definition get_historical_data (user : option Z) (limit : Z)
  : M (list HistoryPoint) :=
  data <- load_data ;;
  let data := filter_user user data in
  if len data =? 0 then ret []
  else
    let sorted_data := sorted_desc data in
    let recent_data := slice_to limit sorted_data in
    ret (map (fun '(i, item) =>
                {| month := ("Month " ++ str_int (i + 1))%string;
                   hist_market_price := market_price item;
                   hist_net_profit := net_profit item |})
             (enumerate_from 0 recent_data)).

Definition get_model_stats (user : option Z) : M Stats :=
  data <- load_data ;;
  let data := filter_user user data in
  if len data =? 0 then
    ret {| total_data_points := 0;
           model_trained := false;
           message := Some "No data available"%string;
           avg_market_price := 0;
           avg_profit := 0;
           total_users := match user with Some _ => 1 | None => 0 end;
           model_type := "LinearRegression";
           training_status := "Not trained";
           model_performance := None;
           date_range := None |}
  else
    try_except
      (let prices := map market_price data in
       let profits := map net_profit data in
       let user_ids := nodup Z.eq_dec (map user_id data) in
       price_trained <- gets price_model_trained ;;
       price_perf <-
         (if price_trained && (3 <=? len data) then
            try_except
              (let price_features := price_features_of data in
               let price_targets := prices in
               scaler <- gets price_scaler ;;
               price_features_scaled <- lift (transform scaler price_features) ;;
               model <- gets price_model ;;
               price_predictions <- lift (predict model price_features_scaled) ;;
               price_mse <- lift (mean_squared_error lib price_targets price_predictions) ;;
               price_r2 <- lift (r2_score lib price_targets price_predictions) ;;
               ret (Some (Metrics (round price_mse 2) (round price_r2 3))))
              (fun e => ret (Some (MetricsError (str e))))
          else ret None) ;;
       profit_trained <- gets profit_model_trained ;;
       profit_perf <-
         (if profit_trained && (3 <=? len data) then
            try_except
              (let profit_features := profit_features_of data in
               let profit_targets := profits in
               scaler <- gets profit_scaler ;;
               profit_features_scaled <- lift (transform scaler profit_features) ;;
               model <- gets profit_model ;;
               profit_predictions <- lift (predict model profit_features_scaled) ;;
               profit_mse <- lift (mean_squared_error lib profit_targets profit_predictions) ;;
               profit_r2 <- lift (r2_score lib profit_targets profit_predictions) ;;
               ret (Some (Metrics (round profit_mse 2) (round profit_r2 3))))
              (fun e => ret (Some (MetricsError (str e))))
          else ret None) ;;
       both <- gets (fun s => price_model_trained s && profit_model_trained s) ;;
       start <- lift (py_min (map timestamp data)) ;;
       end_ <- lift (py_max (map timestamp data)) ;;
       ret {| total_data_points := len data;
              model_trained := both;
              message := None;
              avg_market_price :=
                match prices with
                | [] => 0%Q
                | _ => round (Qsum prices / inject_Z (len prices)) 2
                end;
              avg_profit :=
                match profits with
                | [] => 0%Q
                | _ => round (Qsum profits / inject_Z (len profits)) 2
                end;
              total_users := len user_ids;
              model_type := "LinearRegression";
              training_status :=
                if both then "Trained"%string else "Partially trained"%string;
              model_performance := Some (price_perf, profit_perf);
              date_range := Some (start, end_) |})
      (fun e =>
         ret {| total_data_points := len data;
                model_trained := false;
                message := Some ("Error calculating stats: " ++ str e)%string;
                avg_market_price := 0;
                avg_profit := 0;
                total_users := match user with Some _ => 1 | None => 0 end;
                model_type := "LinearRegression";
                training_status := "Error";
                model_performance := None;
                date_range := None |}).

(** ** The analytics page of app.py, as far as it talks to the predictor *)

Record AnalyticsPage : Type := {
  flashed : option string;
  page_stats : Stats;
  page_historical_data : list HistoryPoint;
  page_price_predictions : option (list PricePoint);
  page_price_error : option string;
  page_profit_predictions : option (list ProfitPoint);
  page_profit_error : option string
}.

(** [analytics()] for the logged-in user; [clear_data] says whether the
    request is the POST of the clear-data form. *)
Definition analytics (current_user : Z) (clear_data : bool) : M AnalyticsPage :=
  fl <- (if clear_data then
           try_except
             (clear_user_data current_user ;;
              ret (Some "All your data has been cleared successfully!"%string))
             (fun e => ret (Some "Error clearing data. Please try again."%string))
         else ret None) ;;
  stats <- get_model_stats (Some current_user) ;;
  historical_data <- get_historical_data (Some current_user) 3 ;;
  price <- predict_future_prices 3 ;;
  profit <- predict_future_profits 3 ;;
  ret {| flashed := fl;
         page_stats := stats;
         page_historical_data := historical_data;
         page_price_predictions := fst price;
         page_price_error := snd price;
         page_profit_predictions := fst profit;
         page_profit_error := snd profit |}.

End MarketPredictor.

(** What [load_data] returns in a state. *)
Definition store (s : State) : list Row :=
  match data_file s with
  | Json data => data
  | Missing | Unreadable => []
  end.

(** A record with its owner erased. *)
Definition anonymise (r : Row) : Row :=
  {| user_id := 0;
     market_price := market_price r;
     harvest_amount := harvest_amount r;
     total_cost := total_cost r;
     total_revenue := total_revenue r;
     net_profit := net_profit r;
     timestamp := timestamp r |}.

(** The four forecast fields of a rendered analytics page. *)
Definition forecasts_of (r : res AnalyticsPage)
  : option (option (list PricePoint) * option string
            * option (list ProfitPoint) * option string) :=
  match r with
  | Ok p => Some (page_price_predictions p, page_price_error p,
                  page_profit_predictions p, page_profit_error p)
  | Raise _ => None
  end.

(** A price or profit object that is fitted on [n] features. *)
Definition fitted_on (n : nat) (sc : option Scaler)
           (m : option LinearRegression) : bool :=
  match sc, m with
  | Some sc, Some m =>
      (length (mean_ sc) =? n)%nat && (length (scale_ sc) =? n)%nat
      && (length (coef_ m) =? n)%nat
  | _, _ => false
  end.


Definition flat_profit (sc : Scaler) (m : LinearRegression) (data : list Row) : Q :=
  let recent_data := last_k (Z.min 5 (len data)) data in
  let features := [np_mean (map market_price recent_data);
                   np_mean (map harvest_amount recent_data);
                   np_mean (map total_cost recent_data)] in
  round (dot (scale_row features (mean_ sc) (scale_ sc)) (coef_ m)
         + intercept_ m)%Q 2.

(** ** Concrete libraries and states on which the methods can be run *)

Module Example.

(** Column means of a matrix with [n] columns. *)
Fixpoint column_means (n : nat) (X : list (list Q)) : list Q :=
  match n with
  | O => []
  | S n' => np_mean (map (fun x => hd 0%Q x) X)
            :: column_means n' (map (fun x => tl x) X)
  end.

Definition width (X : list (list Q)) : nat :=
  match X with [] => O | x :: _ => length x end.

(** A stand-in for the library: it centres the features (unit scale), holds
    out the first fifth of the rows, fits the constant line through the mean
    of the training targets and reports the mean squared error. *)
Definition lib : Sklearn := {|
  scaler_fit X :=
    Ok {| mean_ := column_means (width X) X; scale_ := repeat 1%Q (width X) |};
  train_test_split X y :=
    let n_test := Z.to_nat ((len X + 4) / 5) in
    Ok (skipn n_test X, firstn n_test X, skipn n_test y, firstn n_test y);
  linreg_fit X y :=
    Ok {| coef_ := repeat 0%Q (width X); intercept_ := np_mean y |};
  mean_squared_error y p :=
    Ok (np_mean (map (fun '(a, b) => (a - b) * (a - b))%Q (combine y p)));
  r2_score y p := Ok 0%Q
|}.

(** A library that rejects its input, as the real one does on NaN. *)
Definition failing_lib : Sklearn := {|
  scaler_fit X := Raise (ValueError "Input contains NaN.");
  train_test_split X y := Raise (ValueError "Input contains NaN.");
  linreg_fit X y := Raise (ValueError "Input contains NaN.");
  mean_squared_error y p := Raise (ValueError "Input contains NaN.");
  r2_score y p := Raise (ValueError "Input contains NaN.")
|}.

(** 2026-11-03 19:15:07 *)
Definition today : datetime :=
  {| toordinal := 739923; microsecond_of_day := 69307000000 |}.

Definition row (user : Z) (price harvest cost : Q) (ts : string) : Row :=
  {| user_id := user; market_price := price; harvest_amount := harvest;
     total_cost := cost; total_revenue := (price * harvest)%Q;
     net_profit := (price * harvest - cost)%Q; timestamp := ts |}.

Definition r1 : Row := row 1 5 10 100 "2026-08-01T10:00:00".
Definition r2 : Row := row 1 6 20 200 "2026-09-01T10:00:00".
Definition r3 : Row := row 1 7 30 300 "2026-10-01T10:00:00".
Definition r4 : Row := row 2 4 15 120 "2026-10-15T10:00:00".

(** A fresh predictor over a file with two records of user 1. *)
Definition two_rows : State := init (Json [r1; r2]) Writable today.

(** A fresh predictor over a file with records of users 1 and 2. *)
Definition four_rows : State := init (Json [r1; r2; r4; r3]) Writable today.

(** The same file on a disk that refuses writes. *)
Definition read_only : State := init (Json [r1; r2; r4; r3]) ReadOnly today.

(** A trained predictor whose price line lies below zero at the mean
    features: intercept -50, no slope. *)
Definition trained : State :=
  {| data_file := Json [r1; r2; r4; r3]; disk := Writable; clock := today;
     price_model := Some {| coef_ := [1; 0]%Q; intercept_ := (-50)%Q |};
     profit_model := Some {| coef_ := [1; 2; 0]%Q; intercept_ := (-7 # 3)%Q |};
     price_scaler := Some {| mean_ := [18; 180]%Q; scale_ := [2; 1]%Q |};
     profit_scaler := Some {| mean_ := [5; 18; 180]%Q; scale_ := [1; 1; 1]%Q |};
     price_model_trained := true; profit_model_trained := true |}.

End Example.

(** ** The forecasts in float64 arithmetic

    The methods above compute with exact rationals.  A Python float is an
    IEEE 754 binary64 number: every operation rounds its exact result to
    the nearest number with a 53-bit significand, ties to even, and a
    result that rounds to [2^1024] or beyond is an infinity.  numpy and
    scikit-learn react to that: [StandardScaler.transform] and
    [LinearRegression.predict] refuse an input that is not finite.  This
    module writes the two forecast methods again in that arithmetic.  A
    number of the data file is the float that [json.load] reads from its
    decimal text; fitted parameters are finite floats. *)

Module Float64.

Inductive float64 : Type :=
| Finite (q : Q)
| PosInf
| NegInf
| NaN.

(** [2^k] for an integer [k] of either sign. *)
Definition pow2 (k : Z) : Q :=
  if 0 <=? k then inject_Z (2 ^ k) else 1 # Z.to_pos (2 ^ (- k)).

(** The binade of a positive rational: the largest [e] with [2^e <= a]. *)
Definition ilog2 (a : Q) : Z :=
  let e0 := Z.log2 (Qnum a) - Z.log2 (Zpos (Qden a)) in
  if Qle_bool (pow2 e0) a then e0 else e0 - 1.

(** The least exponent of a normal number; below it the spacing of the
    subnormal numbers stays [2^-1074]. *)
Definition EMIN : Z := -1022.

(** The nearest multiple of the unit in the last place of the binade of
    [q], ties to the even significand. *)
Definition round_to_nearest (q : Q) : Q :=
  let a := Qabs q in
  if Qeq_bool a 0 then 0
  else
    let e := Z.max (ilog2 a) EMIN in
    let ulp := pow2 (e - 52) in
    let r := Qred (inject_Z (round_half_even (a / ulp)) * ulp) in
    if Qle_bool 0 q then r else Qred (- r).

(** The largest finite float64, [2^1024 - 2^971]. *)
Definition MAX : Q := inject_Z (2 ^ 1024 - 2 ^ 971).

(** The float for an exact result: rounded, and an infinity when the
    rounded value leaves the finite range. *)
Definition fl (q : Q) : float64 :=
  let r := round_to_nearest q in
  if Qle_bool r MAX
  then if Qle_bool (- MAX) r then Finite r else NegInf
  else PosInf.

Definition is_finite (x : float64) : bool :=
  match x with Finite _ => true | _ => false end.

Definition fneg (x : float64) : float64 :=
  match x with
  | Finite q => Finite (- q)
  | PosInf => NegInf
  | NegInf => PosInf
  | NaN => NaN
  end.

Definition fadd (x y : float64) : float64 :=
  match x, y with
  | NaN, _ | _, NaN => NaN
  | PosInf, NegInf | NegInf, PosInf => NaN
  | PosInf, _ | _, PosInf => PosInf
  | NegInf, _ | _, NegInf => NegInf
  | Finite a, Finite b => fl (a + b)
  end.

Definition fsub (x y : float64) : float64 := fadd x (fneg y).

(** The infinity with the sign of [a * b], NaN when that product is zero. *)
Definition inf_times (positive_inf : bool) (q : Q) : float64 :=
  match (q ?= 0)%Q with
  | Eq => NaN
  | Gt => if positive_inf then PosInf else NegInf
  | Lt => if positive_inf then NegInf else PosInf
  end.

Definition fmul (x y : float64) : float64 :=
  match x, y with
  | NaN, _ | _, NaN => NaN
  | Finite a, Finite b => fl (a * b)
  | PosInf, Finite b | Finite b, PosInf => inf_times true b
  | NegInf, Finite b | Finite b, NegInf => inf_times false b
  | PosInf, PosInf | NegInf, NegInf => PosInf
  | PosInf, NegInf | NegInf, PosInf => NegInf
  end.

(** numpy's division: dividing by zero gives an infinity or NaN and a
    warning, not an exception. *)
Definition fdiv (x y : float64) : float64 :=
  match x, y with
  | NaN, _ | _, NaN => NaN
  | Finite a, Finite b =>
      match (b ?= 0)%Q with
      | Eq => match (a ?= 0)%Q with
              | Eq => NaN
              | Gt => PosInf
              | Lt => NegInf
              end
      | _ => fl (a / b)
      end
  | Finite _, (PosInf | NegInf) => Finite 0
  | PosInf, Finite b =>
      match (b ?= 0)%Q with Lt => NegInf | _ => PosInf end
  | NegInf, Finite b =>
      match (b ?= 0)%Q with Lt => PosInf | _ => NegInf end
  | (PosInf | NegInf), (PosInf | NegInf) => NaN
  end.

(** [np.mean] of numbers of the data file: the floats are added one after
    the other from zero, then the sum is divided by their number. *)
Definition np_mean (l : list Q) : float64 :=
  fdiv (fold_left (fun acc x => fadd acc (fl x)) l (Finite 0))
       (Finite (inject_Z (len l))).

Definition all_finite (x : list float64) : bool := forallb is_finite x.

Fixpoint scale_row (x : list float64) (mean scale : list Q) : list float64 :=
  match x, mean, scale with
  | xi :: x', mi :: mean', si :: scale' =>
      fdiv (fsub xi (Finite mi)) (Finite si) :: scale_row x' mean' scale'
  | _, _, _ => []
  end.

Fixpoint dot (a : list float64) (b : list Q) : float64 :=
  match a, b with
  | ai :: a', bi :: b' => fadd (fmul ai (Finite bi)) (dot a' b')
  | _, _ => Finite 0
  end.

Definition NOT_FINITE : string :=
  "Input X contains infinity or a value too large for dtype('float64').".

(** [StandardScaler.transform]: the input is validated first. *)
Definition transform (sc : option Scaler) (X : list (list float64))
  : res (list (list float64)) :=
  match sc with
  | None => Raise (NotFittedError "This StandardScaler instance is not fitted yet.")
  | Some sc =>
      map_res (fun x =>
        if negb (all_finite x) then Raise (ValueError NOT_FINITE)
        else if (length x =? n_features_in sc)%nat
                && (length (scale_ sc) =? n_features_in sc)%nat
        then Ok (scale_row x (mean_ sc) (scale_ sc))
        else Raise (ValueError "X has a different number of features than StandardScaler is expecting."))
      X
  end.

(** [LinearRegression.predict]: the input is validated first. *)
Definition predict (m : option LinearRegression) (X : list (list float64))
  : res (list float64) :=
  match m with
  | None => Raise (NotFittedError "This LinearRegression instance is not fitted yet.")
  | Some m =>
      map_res (fun x =>
        if negb (all_finite x) then Raise (ValueError NOT_FINITE)
        else if (length x =? length (coef_ m))%nat
        then Ok (fadd (dot x (coef_ m)) (Finite (intercept_ m)))
        else Raise (ValueError "X has a different number of features than LinearRegression is expecting."))
      X
  end.

(** [max(0, x)]: the second argument only when it compares greater. *)
Definition max0 (x : float64) : float64 :=
  match x with
  | Finite q => Finite (max0 q)
  | PosInf => PosInf
  | NegInf | NaN => Finite 0
  end.

(** [round(x, 2)] on a numpy float: times a hundred, to the nearest
    integer, divided by a hundred. *)
Definition round2 (x : float64) : float64 :=
  match fmul x (Finite 100) with
  | Finite y => fdiv (Finite (inject_Z (round_half_even y))) (Finite 100)
  | other => other
  end.

Record PricePoint : Type := { date : string; predicted_price : float64 }.
Record ProfitPoint : Type := { profit_date : string; predicted_profit : float64 }.

Definition first_of (preds : list float64) : M float64 :=
  match preds with
  | p :: _ => ret p
  | [] => lift (Raise (IndexError "index 0 is out of bounds"))
  end.

Definition predict_future_prices (periods : Z)
  : M (option (list PricePoint) * option string) :=
  trained <- gets price_model_trained ;;
  if negb trained then ret (None, Some NOT_TRAINED)
  else
    try_except
      (data <- load_data ;;
       if len data =? 0 then ret (None, Some NO_DATA)
       else
         let recent_data := last_k (Z.min 5 (len data)) data in
         current_date <- gets clock ;;
         future_predictions <-
           for_each (range1 periods) (fun i =>
             future_date <- lift (add_days current_date (i * 30)) ;;
             let avg_harvest := np_mean (map harvest_amount recent_data) in
             let avg_cost := np_mean (map total_cost recent_data) in
             let features := [[avg_harvest; avg_cost]] in
             scaler <- gets price_scaler ;;
             features_scaled <- lift (transform scaler features) ;;
             model <- gets price_model ;;
             preds <- lift (predict model features_scaled) ;;
             predicted_price <- first_of preds ;;
             let predicted_price := max0 predicted_price in
             ret {| date := strftime_Ymd future_date;
                    predicted_price := round2 predicted_price |}) ;;
         ret (Some future_predictions, None))
      (fun e =>
         ret (None, Some ("Error generating price predictions: " ++ str e)%string)).

Definition predict_future_profits (periods : Z)
  : M (option (list ProfitPoint) * option string) :=
  trained <- gets profit_model_trained ;;
  if negb trained then ret (None, Some NOT_TRAINED)
  else
    try_except
      (data <- load_data ;;
       if len data =? 0 then ret (None, Some NO_DATA)
       else
         let recent_data := last_k (Z.min 5 (len data)) data in
         current_date <- gets clock ;;
         future_predictions <-
           for_each (range1 periods) (fun i =>
             future_date <- lift (add_days current_date (i * 30)) ;;
             let avg_price := np_mean (map market_price recent_data) in
             let avg_harvest := np_mean (map harvest_amount recent_data) in
             let avg_cost := np_mean (map total_cost recent_data) in
             let features := [[avg_price; avg_harvest; avg_cost]] in
             scaler <- gets profit_scaler ;;
             features_scaled <- lift (transform scaler features) ;;
             model <- gets profit_model ;;
             preds <- lift (predict model features_scaled) ;;
             predicted_profit <- first_of preds ;;
             ret {| profit_date := strftime_Ymd future_date;
                    predicted_profit := round2 predicted_profit |}) ;;
         ret (Some future_predictions, None))
      (fun e =>
         ret (None, Some ("Error generating profit predictions: " ++ str e)%string)).

(** The mean features that the price forecast of a store starts from. *)
Definition price_inputs (data : list Row) : list float64 :=
  let recent_data := last_k (Z.min 5 (len data)) data in
  [np_mean (map harvest_amount recent_data);
   np_mean (map total_cost recent_data)].

Definition profit_inputs (data : list Row) : list float64 :=
  let recent_data := last_k (Z.min 5 (len data)) data in
  [np_mean (map market_price recent_data);
   np_mean (map harvest_amount recent_data);
   np_mean (map total_cost recent_data)].

(** The features are finite floats, and so are the values the fitted
    scaler maps them to. *)
Definition finite_through (sc : option Scaler) (x : list float64) : bool :=
  match sc with
  | Some sc => all_finite x && all_finite (scale_row x (mean_ sc) (scale_ sc))
  | None => false
  end.

(** A trained predictor over five records whose harvest amounts are
    1e308. *)
Definition huge_row : Row :=
  {| user_id := 1; market_price := 5; harvest_amount := inject_Z (10 ^ 308);
     total_cost := 100; total_revenue := 50; net_profit := -50;
     timestamp := "2026-08-01T10:00:00" |}.

Definition huge_harvests : State :=
  set_data_file (Json [huge_row; huge_row; huge_row; huge_row; huge_row])
                Example.trained.

End Float64.

(** ** Vocabulary of the statements *)

(** ** Reasoning about computations

    [post m s Q] says that [Q] holds of the result and the final state of
    [m] run from [s]; one rule per construct of the monad. *)

Definition post {A} (m : M A) (s : State) (Q : res A -> State -> Prop) : Prop :=
  Q (fst (m s)) (snd (m s)).

(** The instant [i] thirty-day steps after the clock of [s]. *)
Definition day_ahead (s : State) (i : Z) : datetime :=
  {| toordinal := toordinal (clock s) + i * 30;
     microsecond_of_day := microsecond_of_day (clock s) |}.

Definition valid_clock (s : State) : Prop :=
  1 <= toordinal (clock s) <= MAXORDINAL.

(** A price entry as [predict_future_prices] builds it. *)
Definition clamped_rounded (p : PricePoint) : Prop :=
  (0 <= predicted_price p)%Q /\ Qden (predicted_price p) = 100%positive
  /\ exists raw,
       predicted_price p = round (max0 raw) 2
       /\ (Qabs (predicted_price p - max0 raw) <= 1 # 200)%Q.

(** A computation that only reads. *)
Definition reads {A} (m : M A) : Prop :=
  forall s (Q : res A -> State -> Prop),
    (forall r, Q r s) -> post m s Q.

(** The record [add_user_data] builds from its arguments in state [s]. *)
Definition new_row_of (s : State) (user : Z)
           (price harvest cost revenue profit : Q) : Row :=
  {| user_id := user; market_price := price; harvest_amount := harvest;
     total_cost := cost; total_revenue := revenue; net_profit := profit;
     timestamp := isoformat (clock s) |}.

(** The records that [clear_user_data] keeps. *)
Definition others (user : Z) (data : list Row) : list Row :=
  filter (fun item => negb (user_id item =? user)) data.

(** The forecasts that state [s] gives for three periods. *)
Definition forecasts_in (s : State) :=
  match fst (predict_future_prices 3 s), fst (predict_future_profits 3 s) with
  | Ok price, Ok profit => Some (fst price, snd price, fst profit, snd profit)
  | _, _ => None
  end.

(** Both models report Untrained and both forecasts say so. *)
Definition reports_untrained (s : State) : Prop :=
  price_model_trained s = false /\ profit_model_trained s = false
  /\ forall periods,
       predict_future_prices periods s = (Ok (None, Some NOT_TRAINED), s)
       /\ predict_future_profits periods s = (Ok (None, Some NOT_TRAINED), s).

(** A retrain from [s] reaches its [try] block and the block completes. *)
Definition fit_succeeds (lib : Sklearn) (s : State) : Prop :=
  3 <= len (store s) /\ fst (train_body lib (store s) s) = Ok tt.

(** A retrain from [s] raises inside its [try] block. *)
Definition fit_raises (lib : Sklearn) (s : State) : Prop :=
  exists e, fst (train_body lib (store s) s) = Raise e.

(** ** app.py: the handler that feeds the predictor *)

(** The JSON body of the handler's answer. *)
Record Reply : Type := { success : bool; reply_message : string }.

(** [x > 0] *)
Definition gt_zero (x : Q) : bool := negb (Qle_bool x 0).

Section App.

Variable lib : Sklearn.

(** Python's [float] on a submitted string: a number or a [ValueError]. *)
Variable float : string -> res Q.

(** [float(request.form.get(key, 0))] *)
Definition form_float (form : string -> option string) (key : string) : res Q :=
  match form key with
  | Some v => float v
  | None => Ok 0%Q
  end.

Definition handle_add_to_ml (form : string -> option string)
           (current_user : Z) : M Reply :=
  try_except
    (total_cost_ <- lift (form_float form "total_cost") ;;
     total_revenue_ <- lift (form_float form "total_revenue") ;;
     net_profit_ <- lift (form_float form "net_profit") ;;
     market_price_ <- lift (form_float form "market_price") ;;
     harvest_amount_ <- lift (form_float form "harvest_amount") ;;
     if negb (forallb (fun b : bool => b)
                [gt_zero total_cost_; gt_zero total_revenue_;
                 gt_zero market_price_; gt_zero harvest_amount_])
     then ret {| success := false; reply_message := "Invalid data provided" |}
     else
       add_user_data lib current_user market_price_ harvest_amount_
                     total_cost_ total_revenue_ net_profit_ ;;
       ret {| success := true;
              reply_message := "Data successfully added to analysis" |})
    (fun e => ret {| success := false; reply_message := str e |}).

End App.

(** ** app.py: weather codes *)

Definition text_mapping : list (Z * string) :=
  [ (0, "Clear sky"); (1, "Mainly clear"); (2, "Partly cloudy");
    (3, "Overcast"); (45, "Foggy"); (48, "Depositing rime fog");
    (51, "Light drizzle"); (53, "Moderate drizzle"); (55, "Dense drizzle");
    (56, "Light freezing drizzle"); (57, "Dense freezing drizzle");
    (61, "Slight rain"); (63, "Moderate rain"); (65, "Heavy rain");
    (66, "Light freezing rain"); (67, "Heavy freezing rain");
    (71, "Slight snow fall"); (73, "Moderate snow fall");
    (75, "Heavy snow fall"); (77, "Snow grains");
    (80, "Slight rain showers"); (81, "Moderate rain showers");
    (82, "Violent rain showers"); (85, "Slight snow showers");
    (86, "Heavy snow showers"); (95, "Thunderstorm");
    (96, "Thunderstorm with slight hail");
    (99, "Thunderstorm with heavy hail") ]%string.

Definition icon_mapping : list (Z * string) :=
  [ (0, "clear-sky"); (1, "mainly-clear"); (2, "partly-cloudy");
    (3, "overcast"); (45, "fog"); (48, "fog");
    (51, "light-rain"); (53, "moderate-rain"); (55, "heavy-rain");
    (56, "light-rain"); (57, "heavy-rain");
    (61, "light-rain"); (63, "moderate-rain"); (65, "heavy-rain");
    (66, "light-rain"); (67, "heavy-rain");
    (71, "snow"); (73, "snow"); (75, "snow"); (77, "snow");
    (80, "light-rain"); (81, "moderate-rain"); (82, "heavy-rain");
    (85, "snow"); (86, "snow");
    (95, "thunderstorm"); (96, "thunderstorm"); (99, "thunderstorm") ]%string.

(** [mapping.get(code, default)] *)
Fixpoint dict_get (mapping : list (Z * string)) (code : Z) (default : string)
  : string :=
  match mapping with
  | [] => default
  | (k, v) :: rest => if k =? code then v else dict_get rest code default
  end.

Definition weather_code_to_text (code : Z) : string :=
  dict_get text_mapping code "Unknown".

Definition weather_code_to_icon (code : Z) : string :=
  dict_get icon_mapping code "clear-sky".

(** ** Vocabulary of the further statements *)

(** [b] is at least as recent as [a]. *)
Definition not_after (a b : Row) : Prop :=
  String.leb (timestamp a) (timestamp b) = true.

(** Most recent first. *)
Definition recent_first (l : list Row) : Prop :=
  StronglySorted (fun a b => not_after b a) l.

(** The chart entries built from rows, labelled from [Month 1]. *)
Definition chart_points (rows : list Row) : list HistoryPoint :=
  map (fun '(i, item) =>
         {| month := ("Month " ++ str_int i)%string;
            hist_market_price := market_price item;
            hist_net_profit := net_profit item |})
      (combine (range1 (len rows)) rows).

(** What [get_model_stats] reports about rows that exist. *)
Definition describes (lib : Sklearn) (s : State) (rows : list Row)
           (st : Stats) : Prop :=
  total_data_points st = len rows
  /\ message st = None
  /\ model_trained st = price_model_trained s && profit_model_trained s
  /\ training_status st
     = (if price_model_trained s && profit_model_trained s
        then "Trained" else "Partially trained")%string
  /\ total_users st = len (nodup Z.eq_dec (map user_id rows))
  /\ exists first last,
       date_range st = Some (first, last)
       /\ py_min (map timestamp rows) = Ok first
       /\ py_max (map timestamp rows) = Ok last.

(** The parameters of a price model that the library returns on [data]:
    the scaler fitted on all price features, the regression fitted on the
    training part of the split of the scaled features. *)
Definition price_fit_of (lib : Sklearn) (data : list Row)
           (sc : Scaler) (m : LinearRegression) : Prop :=
  scaler_fit lib (price_features_of data) = Ok sc
  /\ exists X X_train X_test y_train y_test,
       transform (Some sc) (price_features_of data) = Ok X
       /\ train_test_split lib X (map market_price data)
          = Ok (X_train, X_test, y_train, y_test)
       /\ linreg_fit lib X_train y_train = Ok m.

Definition profit_fit_of (lib : Sklearn) (data : list Row)
           (sc : Scaler) (m : LinearRegression) : Prop :=
  scaler_fit lib (profit_features_of data) = Ok sc
  /\ exists X X_train X_test y_train y_test,
       transform (Some sc) (profit_features_of data) = Ok X
       /\ train_test_split lib X (map net_profit data)
          = Ok (X_train, X_test, y_train, y_test)
       /\ linreg_fit lib X_train y_train = Ok m.

(** The attributes of the predictor object. *)
Definition attributes (s : State) :=
  (price_model s, profit_model s, price_scaler s, profit_scaler s,
   price_model_trained s, profit_model_trained s).

(** The four validated fields of a record are positive. *)
Definition positive_row (r : Row) : Prop :=
  (0 < total_cost r)%Q /\ (0 < total_revenue r)%Q
  /\ (0 < market_price r)%Q /\ (0 < harvest_amount r)%Q.

(** The environment moves the clock to [t]. *)
Definition at_time (t : datetime) (s : State) : State :=
  {| data_file := data_file s; disk := disk s; clock := t;
     price_model := price_model s; profit_model := profit_model s;
     price_scaler := price_scaler s; profit_scaler := profit_scaler s;
     price_model_trained := price_model_trained s;
     profit_model_trained := profit_model_trained s |}.

(** The state after [add_user_data] at instant [t], for the values
    (price, harvest, cost, revenue, profit). *)
Definition submit (lib : Sklearn) (t : datetime) (user : Z)
           (v : Q * Q * Q * Q * Q) (s : State) : State :=
  let '(price, harvest, cost, revenue, profit) := v in
  snd (add_user_data lib user price harvest cost revenue profit (at_time t s)).

(** The record that [submit] appends. *)
Definition submitted (t : datetime) (user : Z) (v : Q * Q * Q * Q * Q) : Row :=
  let '(price, harvest, cost, revenue, profit) := v in
  {| user_id := user; market_price := price; harvest_amount := harvest;
     total_cost := cost; total_revenue := revenue; net_profit := profit;
     timestamp := isoformat t |}.

(** The profit that the float64 forecast of [data] repeats: the fitted
    line at the scaled mean features of the most recent records, before it
    is rounded. *)
Definition raw_profit (sc : Scaler) (m : LinearRegression) (data : list Row)
  : Float64.float64 :=
  Float64.fadd
    (Float64.dot
       (Float64.scale_row (Float64.profit_inputs data) (mean_ sc) (scale_ sc))
       (coef_ m))
    (Float64.Finite (intercept_ m)).

(** A computation that neither reads nor writes the data file. *)
Definition file_blind {A} (m : M A) : Prop :=
  forall f s, m (set_data_file f s)
              = (fst (m s), set_data_file f (snd (m s))).

(** The five numbers of a request, when [float] accepts all of them. *)
Definition parsed (float : string -> res Q) (form : string -> option string)
           (cost revenue profit price harvest : Q) : Prop :=
  form_float float form "total_cost" = Ok cost
  /\ form_float float form "total_revenue" = Ok revenue
  /\ form_float float form "net_profit" = Ok profit
  /\ form_float float form "market_price" = Ok price
  /\ form_float float form "harvest_amount" = Ok harvest.

Definition all_positive (cost revenue price harvest : Q) : bool :=
  gt_zero cost && gt_zero revenue && gt_zero price && gt_zero harvest.

(** ** Further concrete states and requests *)

Module Scenario.

(** [Example.trained] on a disk that refuses writes. *)
Definition trained_read_only : State :=
  {| data_file := data_file Example.trained; disk := ReadOnly;
     clock := clock Example.trained;
     price_model := price_model Example.trained;
     profit_model := profit_model Example.trained;
     price_scaler := price_scaler Example.trained;
     profit_scaler := profit_scaler Example.trained;
     price_model_trained := true; profit_model_trained := true |}.

(** A trained predictor whose data file has been deleted since. *)
Definition trained_file_gone : State :=
  set_data_file Missing Example.trained.

(** A trained predictor over nine records. *)
Definition nine_rows : State :=
  set_data_file
    (Json ([Example.r3; Example.r3; Example.r2; Example.r1]
           ++ [Example.r1; Example.r2; Example.r4; Example.r3; Example.r1]))
    Example.trained.

(** A fresh predictor with no data file. *)
Definition fresh : State := init Missing Writable Example.today.

(** A parser for the decimal strings used below; any other string is
    rejected as [float] rejects a non-number. *)
Definition float (v : string) : res Q :=
  if String.eqb v "120" then Ok 120%Q
  else if String.eqb v "60" then Ok 60%Q
  else if String.eqb v "4" then Ok 4%Q
  else if String.eqb v "15" then Ok 15%Q
  else if String.eqb v "-60" then Ok (-60)%Q
  else if String.eqb v "0" then Ok 0%Q
  else Raise (ValueError ("could not convert string to float: " ++ v)).

Definition form_of (cost revenue profit price harvest : string)
  : string -> option string :=
  fun key =>
    if String.eqb key "total_cost" then Some cost
    else if String.eqb key "total_revenue" then Some revenue
    else if String.eqb key "net_profit" then Some profit
    else if String.eqb key "market_price" then Some price
    else if String.eqb key "harvest_amount" then Some harvest
    else None.

Definition good_form : string -> option string :=
  form_of "120" "60" "-60" "4" "15".

Definition zero_price_form : string -> option string :=
  form_of "120" "60" "-60" "0" "15".

Definition garbled_form : string -> option string :=
  form_of "120" "sixty" "-60" "4" "15".

End Scenario.

(** * Proofs *)


Lemma post_ret {A} (a : A) s (Q : res A -> State -> Prop) :
  Q (Ok a) s -> post (ret a) s Q.
Proof. exact (fun H => H). Qed.

Lemma post_lift {A} (r : res A) s (Q : res A -> State -> Prop) :
  Q r s -> post (lift r) s Q.
Proof. exact (fun H => H). Qed.

Lemma post_gets {A} (f : State -> A) s (Q : res A -> State -> Prop) :
  Q (Ok (f s)) s -> post (gets f) s Q.
Proof. exact (fun H => H). Qed.

Lemma post_modify (f : State -> State) s (Q : res unit -> State -> Prop) :
  Q (Ok tt) (f s) -> post (modify f) s Q.
Proof. exact (fun H => H). Qed.

Lemma post_bind {A B} (m : M A) (k : A -> M B) s (Q : res B -> State -> Prop) :
  post m s (fun r s' => match r with
                        | Ok a => post (k a) s' Q
                        | Raise e => Q (Raise e) s'
                        end) ->
  post (bind m k) s Q.
Proof.
  unfold post, bind. destruct (m s) as [[a|e] s']; simpl; auto.
Qed.

Lemma post_try {A} (m : M A) (h : exn -> M A) s (Q : res A -> State -> Prop) :
  post m s (fun r s' => match r with
                        | Ok a => Q (Ok a) s'
                        | Raise e => post (h e) s' Q
                        end) ->
  post (try_except m h) s Q.
Proof.
  unfold post, try_except. destruct (m s) as [[a|e] s']; simpl; auto.
Qed.

Lemma post_load_data s (Q : res (list Row) -> State -> Prop) :
  Q (Ok (store s)) s -> post load_data s Q.
Proof.
  unfold post, load_data, store. destruct (data_file s); auto.
Qed.

Lemma post_weaken {A} (m : M A) s (Q Q' : res A -> State -> Prop) :
  post m s Q -> (forall r s', Q r s' -> Q' r s') -> post m s Q'.
Proof. unfold post. auto. Qed.

Ltac step :=
  lazymatch goal with
  | |- post (bind _ _) _ _ => apply post_bind
  | |- post (try_except _ _) _ _ => apply post_try
  | |- post (ret _) _ _ => apply post_ret
  | |- post (gets _) _ _ => apply post_gets
  | |- post (modify _) _ _ => apply post_modify
  | |- post load_data _ _ => apply post_load_data
  | |- post mark_untrained _ _ => unfold mark_untrained
  | |- post (lift ?r) _ _ =>
      apply post_lift; destruct r as [?|?] eqn:?
  | |- post (if ?b then _ else _) _ _ => destruct b eqn:?
  | |- post (let '(_, _) := ?p in _) _ _ => destruct p
  | |- post (match ?p with (_, _) => _ end) _ _ => destruct p
  end.

Ltac steps := repeat (cbv beta iota; step).

Lemma len_map {A B} (f : A -> B) (l : list A) : len (map f l) = len l.
Proof. unfold len. now rewrite length_map. Qed.

Lemma len_nonneg {A} (l : list A) : 0 <= len l.
Proof. unfold len. lia. Qed.

Section Training.

Variable lib : Sklearn.

(** Fitting touches neither the file, nor the disk, nor the clock. *)
Lemma train_body_frame (data : list Row) (s : State) :
  post (train_body lib data) s (fun _ s' =>
    data_file s' = data_file s /\ disk s' = disk s /\ clock s' = clock s).
Proof.
  unfold train_body. steps; simpl; auto.
Qed.

(** A [try] block that completes has set both flags. *)
Lemma train_body_ok (data : list Row) (s : State) :
  3 <= len data ->
  post (train_body lib data) s (fun r s' =>
    r = Ok tt ->
    price_model_trained s' = true /\ profit_model_trained s' = true).
Proof.
  intros Hlen. unfold train_body, price_features_of, profit_features_of.
  rewrite !len_map.
  destruct (Z.leb_spec 3 (len data)) as [_|]; [|lia].
  steps; simpl; intros H; try discriminate H; auto.
Qed.

Lemma _train_models_spec (s : State) (Q : res unit -> State -> Prop) :
  (len (store s) < 3 ->
   Q (Ok tt) (set_profit_model_trained false (set_price_model_trained false s))) ->
  (3 <= len (store s) ->
   post (train_body lib (store s)) s (fun r s' =>
     match r with
     | Ok a => Q (Ok a) s'
     | Raise _ =>
         Q (Ok tt) (set_profit_model_trained false
                      (set_price_model_trained false s'))
     end)) ->
  post (_train_models lib) s Q.
Proof.
  intros Hsmall Hbig. unfold _train_models. steps.
  - apply Hsmall. lia.
  - eapply post_weaken; [apply Hbig; lia|].
    intros [a|e] s' H; [exact H|]. steps. exact H.
Qed.

Lemma _train_models_frame (s : State) :
  post (_train_models lib) s (fun r s' =>
    r = Ok tt /\ data_file s' = data_file s /\ disk s' = disk s
    /\ clock s' = clock s).
Proof.
  apply _train_models_spec; intros H; [simpl; auto|].
  eapply post_weaken; [apply train_body_frame|].
  intros [[]|e] s' F; simpl; auto.
Qed.

Lemma _train_models_flags (s : State) :
  post (_train_models lib) s (fun _ s' =>
    (price_model_trained s' = true <->
     3 <= len (store s) /\ fst (train_body lib (store s) s) = Ok tt)
    /\ (profit_model_trained s' = true <->
        3 <= len (store s) /\ fst (train_body lib (store s) s) = Ok tt)).
Proof.
  apply _train_models_spec; intros Hlen.
  - simpl. split; split; intros H; try discriminate H; lia.
  - pose proof (train_body_ok (store s) s Hlen) as Hok. unfold post in *.
    destruct (fst (train_body lib (store s) s)) as [[]|e]; simpl.
    + destruct (Hok eq_refl) as [-> ->]. tauto.
    + split; split; intros H; try discriminate H; destruct H; discriminate.
Qed.

End Training.


Lemma load_data_store (s : State) : load_data s = (Ok (store s), s).
Proof. unfold load_data, store. destruct (data_file s); reflexivity. Qed.

Lemma post_run {A} (m : M A) (s : State) (r : res A) (s' : State) :
  post m s (fun r0 s0 => (r0, s0) = (r, s')) -> m s = (r, s').
Proof. unfold post. destruct (m s). auto. Qed.

(** ** Numbers *)

Lemma round_half_even_nonneg (q : Q) : (0 <= q)%Q -> 0 <= round_half_even q.
Proof.
  intros Hq. unfold round_half_even.
  assert (0 <= Qfloor q) as Hf
    by (change 0 with (Qfloor 0); now apply Qfloor_resp_le).
  destruct (_ ?= _)%Q; [destruct (Z.even _)| |]; lia.
Qed.

Lemma round_nonneg (x : Q) (n : positive) : (0 <= x)%Q -> (0 <= round x n)%Q.
Proof.
  intros Hx. unfold round.
  assert (0 <= round_half_even (x * inject_Z (Z.pos (10 ^ n)))) as H.
  { apply round_half_even_nonneg. apply Qmult_le_0_compat; [exact Hx|].
    unfold Qle; simpl; lia. }
  unfold Qle; simpl. lia.
Qed.

Lemma round_half_even_close (q : Q) :
  (Qabs (inject_Z (round_half_even q) - q) <= 1 # 2)%Q.
Proof.
  unfold round_half_even.
  pose proof (Qfloor_le q) as Hlo. pose proof (Qlt_floor q) as Hhi.
  rewrite inject_Z_plus in Hhi. change (inject_Z 1) with 1%Q in Hhi.
  apply Qabs_Qle_condition.
  destruct (_ ?= _)%Q eqn:E.
  - apply Qeq_alt in E.
    destruct (Z.even _); [|rewrite inject_Z_plus; change (inject_Z 1) with 1%Q];
      split; lra.
  - apply Qlt_alt in E. split; lra.
  - apply Qgt_alt in E. rewrite inject_Z_plus. change (inject_Z 1) with 1%Q.
    split; lra.
Qed.

(** Rounding to two places moves a number by at most half a hundredth. *)
Lemma round_close (x : Q) : (Qabs (round x 2 - x) <= 1 # 200)%Q.
Proof.
  unfold round. change (10 ^ 2)%positive with 100%positive.
  pose proof (round_half_even_close (x * inject_Z 100)) as H.
  apply Qabs_Qle_condition in H. apply Qabs_Qle_condition.
  assert (round_half_even (x * inject_Z 100) # 100
          == inject_Z (round_half_even (x * inject_Z 100)) * (1 # 100))%Q as E.
  { unfold Qeq, Qmult, inject_Z; simpl. lia. }
  rewrite E. clear E.
  set (z := inject_Z (round_half_even (x * inject_Z 100))) in *.
  change (inject_Z 100) with 100%Q in *.
  split; lra.
Qed.

Lemma max0_nonneg (x : Q) : (0 <= max0 x)%Q.
Proof.
  unfold max0. destruct (Qle_bool x 0) eqn:E.
  - apply Qle_refl.
  - apply Qlt_le_weak, Qnot_le_lt. intros H.
    apply Qle_bool_iff in H. congruence.
Qed.

Lemma max0_below (x : Q) : (x <= 0)%Q -> max0 x = 0%Q.
Proof.
  intros H. unfold max0. apply Qle_bool_iff in H. now rewrite H.
Qed.

(** ** Loops *)

Lemma In_count_from (i a : Z) (n : nat) :
  In i (count_from a n) <-> a <= i < a + Z.of_nat n.
Proof.
  revert a. induction n as [|n IH]; intros a; simpl count_from.
  - simpl. lia.
  - simpl In. rewrite IH. lia.
Qed.

Lemma length_count_from (a : Z) (n : nat) : length (count_from a n) = n.
Proof. revert a. induction n; intros; simpl; auto. Qed.

Lemma In_range1 (i periods : Z) : In i (range1 periods) <-> 1 <= i <= periods.
Proof. unfold range1. rewrite In_count_from. lia. Qed.

Lemma len_range1 (periods : Z) : 0 <= periods -> len (range1 periods) = periods.
Proof. intros. unfold len, range1. rewrite length_count_from. lia. Qed.

(** A loop whose rounds all succeed and leave the state alone collects
    their results. *)
Lemma for_each_ok {A B} (l : list A) (body : A -> M B) (f : A -> B) (s : State) :
  (forall a, In a l -> body a s = (Ok (f a), s)) ->
  for_each l body s = (Ok (map f l), s).
Proof.
  induction l as [|a l IH]; intros H; simpl; [reflexivity|].
  unfold bind at 1. rewrite (H a) by (left; reflexivity).
  unfold bind at 1. rewrite IH by (intros; apply H; right; assumption).
  reflexivity.
Qed.

(** Whatever a loop returns was produced by its rounds. *)
Lemma for_each_post {A B} (l : list A) (body : A -> M B) (P : B -> Prop) :
  (forall a s, post (body a) s (fun r _ => forall b, r = Ok b -> P b)) ->
  forall s, post (for_each l body) s
                 (fun r _ => forall bs, r = Ok bs -> Forall P bs).
Proof.
  intros Hbody. induction l as [|a l IH]; intros s; simpl for_each.
  - steps. intros bs [= <-]. constructor.
  - apply post_bind. eapply post_weaken; [apply Hbody|].
    intros [b|e] s1 Hb; [|discriminate].
    apply post_bind. eapply post_weaken; [apply IH|].
    intros [bs|e] s2 Hbs; [|discriminate].
    steps. intros ? [= <-]. constructor; auto.
Qed.

(** ** Dates *)

Lemma add_days_ok (d : datetime) (k : Z) :
  1 <= toordinal d + k <= MAXORDINAL -> 1 <= toordinal d <= MAXORDINAL ->
  add_days d k = Ok {| toordinal := toordinal d + k;
                       microsecond_of_day := microsecond_of_day d |}.
Proof.
  unfold add_days, MAXORDINAL, MAXDELTADAYS. intros H1 H2.
  destruct (Z.ltb_spec 999999999 (Z.abs k)); [lia|].
  destruct (Z.leb_spec 1 (toordinal d + k)); [|lia].
  destruct (Z.leb_spec (toordinal d + k) 3652059); [|lia].
  reflexivity.
Qed.

Lemma add_days_overflow (d : datetime) (k : Z) :
  MAXORDINAL < toordinal d + k -> is_ok (add_days d k) = false.
Proof.
  unfold add_days, MAXORDINAL. intros H.
  destruct (_ <? _); [reflexivity|].
  destruct (Z.leb_spec (toordinal d + k) 3652059); [lia|].
  rewrite andb_false_r. reflexivity.
Qed.

(** ** Forecasts of a fitted model *)


Lemma length_2 {A} (l : list A) : length l = 2%nat -> exists a b, l = [a; b].
Proof. destruct l as [|a [|b [|c l]]]; try discriminate. eauto. Qed.

Lemma length_3 {A} (l : list A) :
  length l = 3%nat -> exists a b c, l = [a; b; c].
Proof. destruct l as [|a [|b [|c [|d l]]]]; try discriminate. eauto. Qed.

Lemma fitted_on_inv n sc m :
  fitted_on n sc m = true ->
  exists sc' m', sc = Some sc' /\ m = Some m' /\ length (mean_ sc') = n
                 /\ length (scale_ sc') = n /\ length (coef_ m') = n.
Proof.
  destruct sc as [sc'|], m as [m'|]; simpl; try discriminate.
  rewrite !andb_true_iff, !Nat.eqb_eq. intros [[? ?] ?]. eauto 10.
Qed.



Lemma predict_future_profits_fitted (s : State) (sc : Scaler)
      (m : LinearRegression) (periods : Z) :
  profit_model_trained s = true -> store s <> [] ->
  profit_scaler s = Some sc -> profit_model s = Some m ->
  fitted_on 3 (Some sc) (Some m) = true ->
  valid_clock s -> toordinal (clock s) + 30 * periods <= MAXORDINAL ->
  predict_future_profits periods s =
  (Ok (Some (map (fun i => {| profit_date := strftime_Ymd (day_ahead s i);
                              predicted_profit := flat_profit sc m (store s) |})
                 (range1 periods)), None), s).
Proof.
  intros Ht Hne Hsc Hm Hfit Hclock Hmax.
  apply fitted_on_inv in Hfit as (sc' & m' & [= <-] & [= <-] & H1 & H2 & H3).
  apply post_run.
  unfold predict_future_profits.
  apply post_bind, post_gets. rewrite Ht. simpl negb. cbv iota.
  apply post_try, post_bind, post_load_data.
  destruct (Z.eqb_spec (len (store s)) 0) as [E|_].
  { destruct (store s); [congruence|]. unfold len in E. simpl in E. lia. }
  apply post_bind, post_gets, post_bind. unfold post at 1.
  erewrite for_each_ok; [simpl fst; simpl snd; apply post_ret; reflexivity|].
  intros i Hi. apply In_range1 in Hi. cbv beta.
  unfold bind at 1, lift at 1.
  rewrite add_days_ok by (unfold valid_clock in *; lia).
  unfold bind, gets, lift, ret. rewrite Hsc, Hm.
  unfold transform, predict, n_features_in, map_res. rewrite H1, H2.
  simpl Nat.eqb. simpl andb. cbv iota.
  apply length_3 in H1 as (m1 & m2 & m3 & E1).
  apply length_3 in H2 as (s1 & s2 & s3 & E2).
  apply length_3 in H3 as (c1 & c2 & c3 & E3).
  unfold flat_profit, day_ahead. rewrite E1, E2, E3. simpl. reflexivity.
Qed.

Lemma untrained_prices (s : State) (periods : Z) :
  price_model_trained s = false ->
  predict_future_prices periods s = (Ok (None, Some NOT_TRAINED), s).
Proof.
  intros H. unfold predict_future_prices, bind, gets. rewrite H. reflexivity.
Qed.

Lemma untrained_profits (s : State) (periods : Z) :
  profit_model_trained s = false ->
  predict_future_profits periods s = (Ok (None, Some NOT_TRAINED), s).
Proof.
  intros H. unfold predict_future_profits, bind, gets. rewrite H. reflexivity.
Qed.

Ltac step' :=
  lazymatch goal with
  | |- post (first_of ?l) _ _ => unfold first_of; destruct l
  | |- post (match ?x with Some _ => _ | None => _ end) _ _ => destruct x
  | _ => step
  end.
Ltac steps' := repeat (cbv beta iota; step').


Lemma predict_future_prices_entries (periods : Z) (s : State) :
  post (predict_future_prices periods) s (fun r _ =>
    forall l err, r = Ok (Some l, err) -> Forall clamped_rounded l).
Proof.
  unfold predict_future_prices.
  apply post_bind, post_gets.
  destruct (negb (price_model_trained s)); [steps; intros; discriminate|].
  apply post_try, post_bind, post_load_data.
  destruct (len (store s) =? 0); [steps; intros; discriminate|].
  apply post_bind, post_gets, post_bind.
  eapply post_weaken.
  - apply (for_each_post _ _ clamped_rounded).
    intros i s0. steps'; try (intros; discriminate).
    intros b [= <-]. unfold clamped_rounded; simpl. repeat split.
    + apply round_nonneg, max0_nonneg.
    + eexists. split; [reflexivity|apply round_close].
  - intros [bs|e] s1 H; steps.
    + intros l err [= <- <-]. auto.
    + intros; discriminate.
Qed.

(** ** The reading methods never raise and never change the state *)

Lemma predict_future_prices_total (periods : Z) (s : State) :
  post (predict_future_prices periods) s (fun r _ => is_ok r = true).
Proof.
  unfold predict_future_prices. apply post_bind, post_gets.
  destruct (negb _); [steps; reflexivity|].
  apply post_try. unfold post.
  destruct (fst _); [reflexivity|]. reflexivity.
Qed.

Lemma predict_future_profits_total (periods : Z) (s : State) :
  post (predict_future_profits periods) s (fun r _ => is_ok r = true).
Proof.
  unfold predict_future_profits. apply post_bind, post_gets.
  destruct (negb _); [steps; reflexivity|].
  apply post_try. unfold post.
  destruct (fst _); [reflexivity|]. reflexivity.
Qed.

Lemma get_historical_data_total (user : option Z) (limit : Z) (s : State) :
  post (get_historical_data user limit) s (fun r s' => is_ok r = true /\ s' = s).
Proof. unfold get_historical_data. steps; auto. Qed.


Lemma reads_for_each {A B} (l : list A) (body : A -> M B) :
  (forall a, reads (body a)) -> reads (for_each l body).
Proof.
  intros Hb. induction l as [|a l IH]; intros s Q HQ; simpl for_each.
  - steps. apply HQ.
  - apply post_bind, Hb. intros [b|e]; [|apply HQ].
    apply post_bind, IH. intros [bs|e]; [|apply HQ]. steps. apply HQ.
Qed.

Lemma predict_future_prices_reads (periods : Z) : reads (predict_future_prices periods).
Proof.
  intros s Q HQ. unfold predict_future_prices. steps; try apply HQ.
  apply reads_for_each.
  - intros i s0 Q0 HQ0. steps'; apply HQ0.
  - intros [bs|e]; steps; apply HQ.
Qed.

Lemma predict_future_profits_reads (periods : Z) : reads (predict_future_profits periods).
Proof.
  intros s Q HQ. unfold predict_future_profits. steps; try apply HQ.
  apply reads_for_each.
  - intros i s0 Q0 HQ0. steps'; apply HQ0.
  - intros [bs|e]; steps; apply HQ.
Qed.

Lemma get_model_stats_total (lib : Sklearn) (user : option Z) (s : State) :
  post (get_model_stats lib user) s (fun r s' => is_ok r = true /\ s' = s).
Proof.
  unfold get_model_stats. steps'; auto.
Qed.


(** ** Writing the file *)

Lemma post_save_data (data : list Row) s (Q : res unit -> State -> Prop) :
  match disk s with
  | Writable => Q (Ok tt) (set_data_file (Json data) s)
  | ReadOnly => Q (Raise (OSError "Permission denied")) s
  | NoSpace => Q (Raise (OSError "No space left on device"))
                 (set_data_file Unreadable s)
  end ->
  post (save_data data) s Q.
Proof. unfold post, save_data. destruct (disk s); auto. Qed.


Lemma add_user_data_writable (lib : Sklearn) (s : State) (user : Z)
      (price harvest cost revenue profit : Q) :
  disk s = Writable ->
  post (add_user_data lib user price harvest cost revenue profit) s
    (fun r s' =>
       let data := store s ++ [new_row_of s user price harvest cost revenue profit] in
       r = Ok data /\ data_file s' = Json data
       /\ s' = snd (_train_models lib (set_data_file (Json data) s))).
Proof.
  intros Hd. unfold add_user_data.
  apply post_bind, post_load_data, post_bind, post_gets.
  apply post_bind, post_save_data. rewrite Hd.
  apply post_bind. unfold post at 1.
  pose proof (_train_models_frame lib
    (set_data_file (Json (store s ++ [new_row_of s user price harvest cost revenue profit])) s))
    as F. unfold post in F. unfold new_row_of in F.
  destruct F as (-> & F1 & _). apply post_ret.
  cbv zeta. unfold new_row_of. rewrite F1. auto.
Qed.

Lemma add_user_data_unwritable (lib : Sklearn) (s : State) (user : Z)
      (price harvest cost revenue profit : Q) :
  disk s <> Writable ->
  post (add_user_data lib user price harvest cost revenue profit) s
    (fun r s' => exists msg, r = Raise (OSError msg)).
Proof.
  intros Hd. unfold add_user_data.
  apply post_bind, post_load_data, post_bind, post_gets.
  apply post_bind, post_save_data.
  destruct (disk s); [congruence| |]; eauto.
Qed.


Lemma clear_user_data_writable (lib : Sklearn) (s : State) (user : Z) :
  disk s = Writable ->
  post (clear_user_data lib user) s (fun r s' =>
    r = Ok tt /\ data_file s' = Json (others user (store s))
    /\ s' = snd (_train_models lib
                   (set_data_file (Json (others user (store s))) s))).
Proof.
  intros Hd. unfold clear_user_data.
  apply post_bind, post_load_data.
  apply post_bind, post_save_data. rewrite Hd.
  pose proof (_train_models_frame lib
    (set_data_file (Json (others user (store s))) s)) as F.
  unfold post in *. unfold others in *. destruct F as (-> & -> & _). auto.
Qed.

Lemma clear_user_data_unwritable (lib : Sklearn) (s : State) (user : Z) :
  disk s <> Writable ->
  post (clear_user_data lib user) s
    (fun r s' => exists msg, r = Raise (OSError msg)).
Proof.
  intros Hd. unfold clear_user_data.
  apply post_bind, post_load_data.
  apply post_bind, post_save_data.
  destruct (disk s); [congruence| |]; eauto.
Qed.

Lemma filter_user_others_same (user : Z) (data : list Row) :
  filter_user (Some user) (others user data) = [].
Proof.
  unfold filter_user, others. induction data as [|r data IH]; simpl; auto.
  destruct (Z.eqb_spec (user_id r) user) as [E|N]; simpl; auto.
  destruct (Z.eqb_spec (user_id r) user); [contradiction|]. exact IH.
Qed.

Lemma filter_user_others_other (user v : Z) (data : list Row) :
  v <> user ->
  filter_user (Some v) (others user data) = filter_user (Some v) data.
Proof.
  intros Hv. unfold filter_user, others.
  induction data as [|r data IH]; simpl; auto.
  destruct (Z.eqb_spec (user_id r) user) as [E|N]; simpl.
  - destruct (Z.eqb_spec (user_id r) v); [lia|]. exact IH.
  - destruct (Z.eqb_spec (user_id r) v); [f_equal|]; exact IH.
Qed.

Lemma get_historical_data_empty (user : option Z) (limit : Z) (s : State) :
  filter_user user (store s) = [] ->
  get_historical_data user limit s = (Ok [], s).
Proof.
  intros H. apply post_run. unfold get_historical_data.
  apply post_bind, post_load_data. rewrite H. simpl. apply post_ret.
  reflexivity.
Qed.

(** ** Training sees every record, whoever owns it *)

Lemma train_body_anonymise (lib : Sklearn) (data : list Row) :
  train_body lib (map anonymise data) = train_body lib data.
Proof.
  unfold train_body, price_features_of, profit_features_of.
  rewrite !map_map. reflexivity.
Qed.

(** ** What the analytics page shows *)


Lemma analytics_forecasts (lib : Sklearn) (user : Z) (s : State) :
  forecasts_of (fst (analytics lib user false s)) = forecasts_in s.
Proof.
  change (post (analytics lib user false) s
            (fun r _ => forecasts_of r = forecasts_in s)).
  unfold analytics. apply post_bind, post_ret.
  apply post_bind. eapply post_weaken; [apply get_model_stats_total|].
  intros [stats|e] s1 [Hok ->]; [clear Hok|discriminate].
  apply post_bind. eapply post_weaken; [apply get_historical_data_total|].
  intros [hist|e] s1 [Hok ->]; [clear Hok|discriminate].
  unfold forecasts_in.
  pose proof (predict_future_prices_reads 3 s (fun _ s' => s' = s)
                (fun _ => eq_refl)) as R1.
  pose proof (predict_future_profits_reads 3 s (fun _ s' => s' = s)
                (fun _ => eq_refl)) as R2.
  unfold post in R1, R2 |- *. unfold bind.
  destruct (predict_future_prices 3 s) as [[p|e] s1]; simpl in *; subst s1;
    [|reflexivity].
  destruct (predict_future_profits 3 s) as [[q|e] s1]; simpl in *; subst s1;
    reflexivity.
Qed.

Lemma trained_not_untrained (periods : Z) (s : State) :
  price_model_trained s = true ->
  fst (predict_future_prices periods s) <> Ok (None, Some NOT_TRAINED).
Proof.
  intros Ht.
  change (post (predict_future_prices periods) s
            (fun r _ => r <> Ok (None, Some NOT_TRAINED))).
  unfold predict_future_prices. apply post_bind, post_gets. rewrite Ht.
  simpl negb. cbv iota.
  apply post_try, post_bind, post_load_data.
  destruct (len (store s) =? 0); [steps; discriminate|].
  apply post_bind, post_gets, post_bind. unfold post at 1.
  destruct (fst _) as [bs|e]; steps; simpl; discriminate.
Qed.

(** A loop with a round that always raises does not complete. *)
Lemma for_each_raises {A B} (l : list A) (body : A -> M B) (a : A) :
  In a l -> (forall s, is_ok (fst (body a s)) = false) ->
  forall s, is_ok (fst (for_each l body s)) = false.
Proof.
  intros Hin Hbad. induction l as [|x l IH]; [destruct Hin|].
  intros s. simpl for_each. unfold bind at 1.
  destruct (body x s) as [[b|e] s1] eqn:E; [|reflexivity].
  destruct Hin as [->|Hin].
  - specialize (Hbad s). rewrite E in Hbad. discriminate.
  - unfold bind at 1. specialize (IH Hin s1).
    destruct (for_each l body s1) as [[bs|e] s2]; [discriminate|reflexivity].
Qed.

(** Beyond the last representable day the price forecast is an error
    message, not a list. *)
Lemma predict_future_prices_overflow (s : State) (periods : Z) :
  price_model_trained s = true -> store s <> [] -> 1 <= periods ->
  MAXORDINAL < toordinal (clock s) + 30 * periods ->
  exists msg, fst (predict_future_prices periods s) = Ok (None, Some msg).
Proof.
  intros Ht Hne Hp Hmax.
  change (post (predict_future_prices periods) s
            (fun r _ => exists msg, r = Ok (None, Some msg))).
  unfold predict_future_prices. apply post_bind, post_gets. rewrite Ht.
  simpl negb. cbv iota.
  apply post_try, post_bind, post_load_data.
  destruct (Z.eqb_spec (len (store s)) 0) as [E|_].
  { destruct (store s); [congruence|]. unfold len in E. simpl in E. lia. }
  apply post_bind, post_gets, post_bind. unfold post at 1.
  match goal with
  | |- context [for_each ?l ?body s] =>
      pose proof (for_each_raises l body periods) as R
  end.
  rewrite In_range1 in R. specialize (R (conj Hp (Z.le_refl _))).
  match type of R with
  | ?H -> _ => assert H as Hbad
  end.
  { intros s0. unfold bind at 1, lift at 1.
    pose proof (add_days_overflow (clock s) (periods * 30)) as O.
    destruct (add_days (clock s) (periods * 30)); [|reflexivity].
    discriminate O. lia. }
  specialize (R Hbad s).
  destruct (fst _) as [bs|e]; [discriminate|]. steps. eauto.
Qed.

(** ** Forecasts within the range of float64 *)

Lemma finite_through_inv (sc : option Scaler) (x : list Float64.float64) :
  Float64.finite_through sc x = true ->
  exists sc', sc = Some sc' /\ Float64.all_finite x = true
              /\ Float64.all_finite
                   (Float64.scale_row x (mean_ sc') (scale_ sc')) = true.
Proof.
  destruct sc as [sc'|]; simpl; [|discriminate].
  rewrite andb_true_iff. intros [H1 H2]. eauto.
Qed.

Lemma float_prices_in_range (s : State) (sc : Scaler) (m : LinearRegression)
      (periods : Z) :
  price_model_trained s = true -> store s <> [] ->
  price_scaler s = Some sc -> price_model s = Some m ->
  fitted_on 2 (Some sc) (Some m) = true ->
  Float64.finite_through (Some sc) (Float64.price_inputs (store s)) = true ->
  valid_clock s -> toordinal (clock s) + 30 * periods <= MAXORDINAL ->
  Float64.predict_future_prices periods s
  = (Ok (Some (map (fun i =>
                      {| Float64.date := strftime_Ymd (day_ahead s i);
                         Float64.predicted_price :=
                           Float64.round2
                             (Float64.max0
                                (Float64.fadd
                                   (Float64.dot
                                      (Float64.scale_row
                                         (Float64.price_inputs (store s))
                                         (mean_ sc) (scale_ sc)) (coef_ m))
                                   (Float64.Finite (intercept_ m)))) |})
                   (range1 periods)), None), s).
Proof.
  intros Ht Hne Hsc Hm Hfit Hfin Hclock Hmax.
  apply fitted_on_inv in Hfit as (sc' & m' & [= <-] & [= <-] & H1 & H2 & H3).
  apply finite_through_inv in Hfin as (sc' & [= <-] & F1 & F2).
  apply post_run.
  unfold Float64.predict_future_prices.
  apply post_bind, post_gets. rewrite Ht. simpl negb. cbv iota.
  apply post_try, post_bind, post_load_data.
  destruct (Z.eqb_spec (len (store s)) 0) as [E|_].
  { destruct (store s); [congruence|]. unfold len in E. simpl in E. lia. }
  apply post_bind, post_gets, post_bind. unfold post at 1.
  erewrite for_each_ok; [simpl fst; simpl snd; apply post_ret; reflexivity|].
  intros i Hi. apply In_range1 in Hi. cbv beta.
  unfold bind at 1, lift at 1.
  rewrite add_days_ok by (unfold valid_clock in *; lia).
  unfold bind at 1, gets at 1. rewrite Hsc.
  unfold bind at 1, lift at 1.
  fold (Float64.price_inputs (store s)).
  unfold Float64.transform, map_res, n_features_in. rewrite F1, H1, H2.
  simpl negb. simpl Nat.eqb. simpl andb. cbv iota.
  unfold bind at 1, gets at 1. rewrite Hm.
  unfold bind at 1, lift at 1.
  unfold Float64.predict, map_res. rewrite F2, H3. simpl negb. cbv iota.
  replace (length (Float64.scale_row (Float64.price_inputs (store s))
                     (mean_ sc) (scale_ sc)) =? 2)%nat with true.
  2:{ apply length_2 in H1 as (a & b & ->). apply length_2 in H2 as (c & d & ->).
      reflexivity. }
  unfold bind, Float64.first_of, ret, day_ahead. reflexivity.
Qed.

Lemma float_profits_in_range (s : State) (sc : Scaler) (m : LinearRegression)
      (periods : Z) :
  profit_model_trained s = true -> store s <> [] ->
  profit_scaler s = Some sc -> profit_model s = Some m ->
  fitted_on 3 (Some sc) (Some m) = true ->
  Float64.finite_through (Some sc) (Float64.profit_inputs (store s)) = true ->
  valid_clock s -> toordinal (clock s) + 30 * periods <= MAXORDINAL ->
  Float64.predict_future_profits periods s
  = (Ok (Some (map (fun i =>
                      {| Float64.profit_date := strftime_Ymd (day_ahead s i);
                         Float64.predicted_profit :=
                           Float64.round2
                             (Float64.fadd
                                (Float64.dot
                                   (Float64.scale_row
                                      (Float64.profit_inputs (store s))
                                      (mean_ sc) (scale_ sc)) (coef_ m))
                                (Float64.Finite (intercept_ m))) |})
                   (range1 periods)), None), s).
Proof.
  intros Ht Hne Hsc Hm Hfit Hfin Hclock Hmax.
  apply fitted_on_inv in Hfit as (sc' & m' & [= <-] & [= <-] & H1 & H2 & H3).
  apply finite_through_inv in Hfin as (sc' & [= <-] & F1 & F2).
  apply post_run.
  unfold Float64.predict_future_profits.
  apply post_bind, post_gets. rewrite Ht. simpl negb. cbv iota.
  apply post_try, post_bind, post_load_data.
  destruct (Z.eqb_spec (len (store s)) 0) as [E|_].
  { destruct (store s); [congruence|]. unfold len in E. simpl in E. lia. }
  apply post_bind, post_gets, post_bind. unfold post at 1.
  erewrite for_each_ok; [simpl fst; simpl snd; apply post_ret; reflexivity|].
  intros i Hi. apply In_range1 in Hi. cbv beta.
  unfold bind at 1, lift at 1.
  rewrite add_days_ok by (unfold valid_clock in *; lia).
  unfold bind at 1, gets at 1. rewrite Hsc.
  unfold bind at 1, lift at 1.
  fold (Float64.profit_inputs (store s)).
  unfold Float64.transform, map_res, n_features_in. rewrite F1, H1, H2.
  simpl negb. simpl Nat.eqb. simpl andb. cbv iota.
  unfold bind at 1, gets at 1. rewrite Hm.
  unfold bind at 1, lift at 1.
  unfold Float64.predict, map_res. rewrite F2, H3. simpl negb. cbv iota.
  replace (length (Float64.scale_row (Float64.profit_inputs (store s))
                     (mean_ sc) (scale_ sc)) =? 3)%nat with true.
  2:{ apply length_3 in H1 as (a & b & c & ->).
      apply length_3 in H2 as (d & e & f & ->). reflexivity. }
  unfold bind, Float64.first_of, ret, day_ahead. reflexivity.
Qed.

(** Beyond the last representable day the float64 forecast is an error
    message too. *)
Lemma float_prices_overflow (s : State) (periods : Z) :
  price_model_trained s = true -> store s <> [] -> 1 <= periods ->
  MAXORDINAL < toordinal (clock s) + 30 * periods ->
  exists msg,
    fst (Float64.predict_future_prices periods s) = Ok (None, Some msg).
Proof.
  intros Ht Hne Hp Hmax.
  change (post (Float64.predict_future_prices periods) s
            (fun r _ => exists msg, r = Ok (None, Some msg))).
  unfold Float64.predict_future_prices. apply post_bind, post_gets. rewrite Ht.
  simpl negb. cbv iota.
  apply post_try, post_bind, post_load_data.
  destruct (Z.eqb_spec (len (store s)) 0) as [E|_].
  { destruct (store s); [congruence|]. unfold len in E. simpl in E. lia. }
  apply post_bind, post_gets, post_bind. unfold post at 1.
  match goal with
  | |- context [for_each ?l ?body s] =>
      pose proof (for_each_raises l body periods) as R
  end.
  rewrite In_range1 in R. specialize (R (conj Hp (Z.le_refl _))).
  match type of R with
  | ?H -> _ => assert H as Hbad
  end.
  { intros s0. unfold bind at 1, lift at 1.
    pose proof (add_days_overflow (clock s) (periods * 30)) as O.
    destruct (add_days (clock s) (periods * 30)); [|reflexivity].
    discriminate O. lia. }
  specialize (R Hbad s).
  destruct (fst _) as [bs|e]; [discriminate|]. steps. eauto.
Qed.

(** Rounding to the nearest float: a tenth, the sum of a tenth and two
    tenths, the largest float, the least magnitude that becomes an
    infinity and the number just below it, and a tie between two floats. *)
Lemma fl_rounds_to_nearest_even :
  Float64.fl (1 # 10)
  = Float64.Finite (3602879701896397 # 36028797018963968)
  /\ Float64.fadd (Float64.fl (1 # 10)) (Float64.fl (2 # 10))
     = Float64.Finite (1351079888211149 # 4503599627370496)
  /\ Float64.fl Float64.MAX = Float64.Finite Float64.MAX
  /\ Float64.fl (inject_Z (2 ^ 1024 - 2 ^ 970)) = Float64.PosInf
  /\ Float64.fl (inject_Z (2 ^ 1024 - 2 ^ 970 - 1))
     = Float64.Finite Float64.MAX
  /\ Float64.fl (inject_Z (2 ^ 53 + 1)) = Float64.Finite (inject_Z (2 ^ 53))
  /\ Float64.fl (inject_Z (2 ^ 53 + 3))
     = Float64.Finite (inject_Z (2 ^ 53 + 4)).
Proof. repeat split; vm_compute; reflexivity. Qed.

(** The partial sums of [np.mean] are rounded one by one: three floats
    whose exact sum rounds to the largest float, while the rounded sum of
    the first two carries the total to an infinity. *)
Lemma np_mean_rounds_each_partial_sum :
  Float64.fl (Qsum [inject_Z (2 ^ 1023); inject_Z (2 ^ 970 + 2 ^ 918);
                    inject_Z (2 ^ 1023 - 2 ^ 971 - 2 ^ 970)])
  = Float64.Finite Float64.MAX
  /\ Float64.np_mean [inject_Z (2 ^ 1023); inject_Z (2 ^ 970 + 2 ^ 918);
                      inject_Z (2 ^ 1023 - 2 ^ 971 - 2 ^ 970)]
     = Float64.PosInf.
Proof. split; vm_compute; reflexivity. Qed.

(** Five records with harvest amounts of 1e308: their sum passes the
    largest float, the mean is an infinity, the scaler refuses it and the
    forecast is an error message. *)
Lemma float_forecast_refuses_infinite_mean :
  Float64.price_inputs (store Float64.huge_harvests)
  = [Float64.PosInf; Float64.Finite 100]
  /\ fst (Float64.predict_future_prices 3 Float64.huge_harvests)
     = Ok (None,
           Some ("Error generating price predictions: "
                 ++ Float64.NOT_FINITE)%string).
Proof. split; vm_compute; reflexivity. Qed.

(** ** The order on timestamps *)

Lemma ascii_compare_trans (c : comparison) (a b d : ascii) :
  Ascii.compare a b = c -> Ascii.compare b d = c -> Ascii.compare a d = c.
Proof.
  unfold Ascii.compare. destruct c; intros H1 H2.
  - apply N.compare_eq_iff in H1, H2. apply N.compare_eq_iff. congruence.
  - rewrite N.compare_lt_iff in *. lia.
  - rewrite N.compare_gt_iff in *. lia.
Qed.

Lemma string_compare_trans (c : comparison) (a b d : string) :
  String.compare a b = c -> String.compare b d = c -> String.compare a d = c.
Proof.
  revert b d. induction a as [|x a IH]; intros [|y b] [|z d]; simpl;
    try congruence.
  destruct (Ascii.compare x y) eqn:E1; destruct (Ascii.compare y z) eqn:E2;
    intros H1 H2; subst; try congruence.
  - rewrite (ascii_compare_trans Eq x y z E1 E2). eauto.
  - apply Ascii.compare_eq_iff in E1. subst. now rewrite E2.
  - apply Ascii.compare_eq_iff in E1. subst. now rewrite E2.
  - apply Ascii.compare_eq_iff in E2. subst. now rewrite E1.
  - now rewrite (ascii_compare_trans Lt x y z E1 E2).
  - apply Ascii.compare_eq_iff in E2. subst. now rewrite E1.
  - now rewrite (ascii_compare_trans Gt x y z E1 E2).
Qed.

Lemma string_leb_trans (a b d : string) :
  String.leb a b = true -> String.leb b d = true -> String.leb a d = true.
Proof.
  unfold String.leb.
  destruct (String.compare a b) eqn:E1; destruct (String.compare b d) eqn:E2;
    try discriminate; intros _ _.
  - now rewrite (string_compare_trans Eq a b d E1 E2).
  - apply String.compare_eq_iff in E1. subst. now rewrite E2.
  - apply String.compare_eq_iff in E2. subst. now rewrite E1.
  - now rewrite (string_compare_trans Lt a b d E1 E2).
Qed.

Lemma string_leb_refl (a : string) : String.leb a a = true.
Proof.
  unfold String.leb. pose proof (String.compare_antisym a a) as H.
  revert H. destruct (String.compare a a); simpl; intros H;
    try discriminate H; reflexivity.
Qed.

Lemma string_ltb_false_leb (a b : string) :
  String.ltb a b = false -> String.leb b a = true.
Proof.
  unfold String.ltb, String.leb. rewrite (String.compare_antisym a b).
  destruct (String.compare b a); simpl; congruence.
Qed.

Lemma string_ltb_true_leb (a b : string) :
  String.ltb a b = true -> String.leb a b = true.
Proof.
  unfold String.ltb, String.leb. destruct (String.compare a b); congruence.
Qed.

(** ** The history is sorted *)

Lemma insert_desc_perm (x : Row) (l : list Row) :
  Permutation (insert_desc x l) (x :: l).
Proof.
  induction l as [|y l IH]; simpl; [reflexivity|].
  destruct (String.ltb _ _); [|reflexivity].
  rewrite IH. apply perm_swap.
Qed.

Lemma sorted_desc_perm (l : list Row) : Permutation (sorted_desc l) l.
Proof.
  induction l as [|x l IH]; simpl; [reflexivity|].
  rewrite insert_desc_perm. now constructor.
Qed.

Lemma insert_desc_sorted (x : Row) (l : list Row) :
  recent_first l -> recent_first (insert_desc x l).
Proof.
  unfold recent_first. induction l as [|y l IH]; intros Hs; simpl.
  - repeat constructor.
  - inversion Hs as [|? ? Hs' Hy]; subst.
    destruct (String.ltb (timestamp x) (timestamp y)) eqn:E.
    + constructor; [auto|].
      eapply Permutation_Forall; [symmetry; apply insert_desc_perm|].
      constructor; [|exact Hy]. now apply string_ltb_true_leb.
    + apply string_ltb_false_leb in E.
      constructor; [exact Hs|]. constructor; [exact E|].
      eapply Forall_impl; [|exact Hy]. intros r Hr. unfold not_after in *.
      eapply string_leb_trans; eauto.
Qed.

Lemma sorted_desc_sorted (l : list Row) : recent_first (sorted_desc l).
Proof.
  induction l as [|x l IH]; simpl; [constructor|].
  now apply insert_desc_sorted.
Qed.

Lemma enumerate_from_combine {A} (l : list A) (i : Z) :
  map (fun '(j, a) => (j + 1, a)) (enumerate_from i l)
  = combine (count_from (i + 1) (length l)) l.
Proof.
  revert i. induction l as [|a l IH]; intros i; simpl; [reflexivity|].
  now rewrite IH.
Qed.

Lemma get_historical_data_eq (user : option Z) (limit : Z) (s : State) :
  get_historical_data user limit s
  = (Ok (chart_points
           (slice_to limit (sorted_desc (filter_user user (store s))))), s).
Proof.
  apply post_run. unfold get_historical_data.
  apply post_bind, post_load_data.
  destruct (Z.eqb_spec (len (filter_user user (store s))) 0) as [E|_].
  - apply post_ret.
    destruct (filter_user user (store s)); [|unfold len in E; simpl in E; lia].
    change (sorted_desc []) with (@nil Row). unfold slice_to.
    destruct (0 <=? limit); rewrite firstn_nil; reflexivity.
  - apply post_ret. f_equal. f_equal. unfold chart_points, range1, len.
    rewrite Nat2Z.id. rewrite <- (enumerate_from_combine _ 0).
    rewrite map_map. apply map_ext. now intros [i r].
Qed.

Lemma slice_to_firstn {A} (limit : Z) (l : list A) :
  exists k, slice_to limit l = firstn k l
            /\ len (firstn k l)
               = if 0 <=? limit then Z.min limit (len l)
                 else Z.max 0 (len l + limit).
Proof.
  unfold slice_to, len. destruct (Z.leb_spec 0 limit).
  - exists (Z.to_nat limit). split; [reflexivity|].
    rewrite length_firstn. lia.
  - exists (length l - Z.to_nat (- limit))%nat. split; [reflexivity|].
    rewrite length_firstn. lia.
Qed.

Lemma recent_first_app_l (a b : list Row) :
  recent_first (a ++ b) ->
  forall x y, In x a -> In y b -> not_after y x.
Proof.
  unfold recent_first. induction a as [|r a IH]; intros Hs x y Hx Hy;
    [destruct Hx|].
  inversion Hs as [|? ? Hs' Hr]; subst. destruct Hx as [->|Hx].
  - rewrite Forall_forall in Hr. apply Hr. apply in_or_app. now right.
  - eapply IH; eauto.
Qed.

Lemma len_chart_points (rows : list Row) : len (chart_points rows) = len rows.
Proof.
  unfold chart_points, len, range1. rewrite length_map, length_combine.
  rewrite Nat2Z.id, length_count_from. lia.
Qed.

Lemma filter_user_In (u : Z) (data : list Row) (r : Row) :
  In r (filter_user (Some u) data) <-> In r data /\ user_id r = u.
Proof.
  unfold filter_user. rewrite filter_In. now rewrite Z.eqb_eq.
Qed.

(** ** Statistics *)

Lemma py_min_spec (l : list string) (m : string) :
  py_min l = Ok m ->
  In m l /\ forall x, In x l -> String.leb m x = true.
Proof.
  destruct l as [|a l]; [discriminate|]. simpl. intros [= <-].
  assert (forall l0 a0,
            let m := fold_left (fun m x => if String.ltb x m then x else m) l0 a0 in
            (m = a0 \/ In m l0) /\ String.leb m a0 = true
            /\ forall x, In x l0 -> String.leb m x = true) as G.
  { clear. induction l0 as [|b l0 IH]; intros a0; simpl.
    - split; [now left|]. split; [apply string_leb_refl|]. intros ? [].
    - destruct (IH (if String.ltb b a0 then b else a0)) as (Hin & Hle & Hall).
      destruct (String.ltb b a0) eqn:E.
      + apply string_ltb_true_leb in E. split; [destruct Hin as [->|]; auto|].
        split; [eapply string_leb_trans; eauto|].
        intros x [->|Hx]; auto.
      + apply string_ltb_false_leb in E. split; [destruct Hin as [->|]; auto|]. split; [auto|].
        intros x [->|Hx]; auto. eapply string_leb_trans; eauto. }
  destruct (G l a) as (Hin & Hle & Hall).
  split; [destruct Hin as [->|]; simpl; auto|].
  intros x [->|Hx]; auto.
Qed.

Lemma py_max_spec (l : list string) (m : string) :
  py_max l = Ok m ->
  In m l /\ forall x, In x l -> String.leb x m = true.
Proof.
  destruct l as [|a l]; [discriminate|]. simpl. intros [= <-].
  assert (forall l0 a0,
            let m := fold_left (fun m x => if String.ltb m x then x else m) l0 a0 in
            (m = a0 \/ In m l0) /\ String.leb a0 m = true
            /\ forall x, In x l0 -> String.leb x m = true) as G.
  { clear. induction l0 as [|b l0 IH]; intros a0; simpl.
    - split; [now left|]. split; [apply string_leb_refl|]. intros ? [].
    - destruct (IH (if String.ltb a0 b then b else a0)) as (Hin & Hle & Hall).
      destruct (String.ltb a0 b) eqn:E.
      + apply string_ltb_true_leb in E. split; [destruct Hin as [->|]; auto|].
        split; [eapply string_leb_trans; eauto|].
        intros x [->|Hx]; auto.
      + apply string_ltb_false_leb in E. split; [destruct Hin as [->|]; auto|]. split; [auto|].
        intros x [->|Hx]; auto. eapply string_leb_trans; eauto. }
  destruct (G l a) as (Hin & Hle & Hall).
  split; [destruct Hin as [->|]; simpl; auto|].
  intros x [->|Hx]; auto.
Qed.

Lemma nodup_constant (u : Z) (l : list Z) :
  l <> [] -> (forall x, In x l -> x = u) -> nodup Z.eq_dec l = [u].
Proof.
  induction l as [|a l IH]; [congruence|]. intros _ H. simpl.
  assert (a = u) as -> by (apply H; now left).
  destruct l as [|b l].
  - destruct (in_dec Z.eq_dec u []) as [[]|]; reflexivity.
  - destruct (in_dec Z.eq_dec u (b :: l)) as [_|N].
    + apply IH; [discriminate|]. intros x Hx. apply H. now right.
    + exfalso. apply N. left. apply H. right. now left.
Qed.

Lemma get_model_stats_with_data (lib : Sklearn) (user : option Z) (s : State) :
  filter_user user (store s) <> [] ->
  post (get_model_stats lib user) s (fun r s' =>
    s' = s /\ exists st, r = Ok st
                         /\ describes lib s (filter_user user (store s)) st).
Proof.
  intros Hne. unfold get_model_stats.
  apply post_bind, post_load_data.
  set (rows := filter_user user (store s)) in *.
  destruct (Z.eqb_spec (len rows) 0) as [E|_].
  { destruct rows; [congruence|]. unfold len in E. simpl in E. lia. }
  assert (exists a l, map timestamp rows = a :: l) as (a & l & Hts).
  { destruct rows as [|r rows']; [congruence|]. simpl. eauto. }
  assert (map market_price rows <> []) as Hp
    by (destruct rows; [congruence|discriminate]).
  assert (map net_profit rows <> []) as Hq
    by (destruct rows; [congruence|discriminate]).
  steps'; try (rewrite Hts in *; discriminate);
    (split; [reflexivity|]); eexists; (split; [reflexivity|]);
    unfold describes; simpl;
    destruct (map market_price rows) eqn:E1; try congruence;
    destruct (map net_profit rows) eqn:E2; try congruence;
    rewrite <- ?E1, <- ?E2;
    repeat split; try reflexivity;
    try (rewrite <- E1; reflexivity); try (rewrite <- E2; reflexivity);
    eauto.
Qed.

(** ** What a successful fit stores *)

Lemma train_body_fitted (lib : Sklearn) (data : list Row) (s : State) :
  3 <= len data ->
  post (train_body lib data) s (fun r s' =>
    r = Ok tt ->
    (exists sc m, price_scaler s' = Some sc /\ price_model s' = Some m
                  /\ price_fit_of lib data sc m)
    /\ (exists sc m, profit_scaler s' = Some sc /\ profit_model s' = Some m
                     /\ profit_fit_of lib data sc m)).
Proof.
  intros Hlen. unfold train_body.
  assert ((3 <=? len (price_features_of data)) = true) as ->
    by (unfold price_features_of; rewrite len_map; lia).
  assert ((3 <=? len (profit_features_of data)) = true) as ->
    by (unfold profit_features_of; rewrite len_map; lia).
  steps; simpl; intros H; try discriminate H.
  split; eexists _, _; (split; [reflexivity|]); (split; [reflexivity|]);
    (split; [eassumption|]); eexists _, _, _, _, _; eauto.
Qed.

Lemma _train_models_fitted (lib : Sklearn) (s : State) :
  post (_train_models lib) s (fun _ s' =>
    price_model_trained s' = true ->
    (exists sc m, price_scaler s' = Some sc /\ price_model s' = Some m
                  /\ price_fit_of lib (store s) sc m)
    /\ (exists sc m, profit_scaler s' = Some sc /\ profit_model s' = Some m
                     /\ profit_fit_of lib (store s) sc m)).
Proof.
  apply _train_models_spec; intros Hlen.
  - simpl. discriminate.
  - eapply post_weaken; [apply (train_body_fitted lib (store s) s Hlen)|].
    intros [[]|e] s' H; simpl; [intros _; now apply H|discriminate].
Qed.

Lemma get_model_stats_no_data (lib : Sklearn) (user : option Z) (s : State) :
  filter_user user (store s) = [] ->
  get_model_stats lib user s
  = (Ok {| total_data_points := 0; model_trained := false;
           message := Some "No data available"%string;
           avg_market_price := 0; avg_profit := 0;
           total_users := match user with Some _ => 1 | None => 0 end;
           model_type := "LinearRegression";
           training_status := "Not trained";
           model_performance := None; date_range := None |}, s).
Proof.
  intros H. apply post_run. unfold get_model_stats.
  apply post_bind, post_load_data. rewrite H. simpl. apply post_ret.
  reflexivity.
Qed.

(** ** The store after a mutation *)

Lemma add_user_data_state (lib : Sklearn) (s : State) (user : Z)
      (price harvest cost revenue profit : Q) :
  disk s = Writable ->
  let s' := snd (add_user_data lib user price harvest cost revenue profit s) in
  store s' = store s ++ [new_row_of s user price harvest cost revenue profit]
  /\ disk s' = Writable /\ clock s' = clock s
  /\ s' = snd (_train_models lib
                 (set_data_file
                    (Json (store s ++ [new_row_of s user price harvest cost
                                         revenue profit])) s)).
Proof.
  intros Hd. simpl.
  destruct (add_user_data_writable lib s user price harvest cost revenue
              profit Hd) as (_ & F & E).
  split; [unfold store at 1; now rewrite F|].
  pose proof (_train_models_frame lib
    (set_data_file (Json (store s ++ [new_row_of s user price harvest cost
                                        revenue profit])) s)) as (_ & _ & D & C).
  rewrite <- E in D, C. simpl in D, C. rewrite D, C. auto.
Qed.

Lemma clear_user_data_state (lib : Sklearn) (s : State) (user : Z) :
  disk s = Writable ->
  let s' := snd (clear_user_data lib user s) in
  store s' = others user (store s)
  /\ disk s' = Writable /\ clock s' = clock s
  /\ s' = snd (_train_models lib
                 (set_data_file (Json (others user (store s))) s)).
Proof.
  intros Hd. simpl.
  destruct (clear_user_data_writable lib s user Hd) as (_ & F & E).
  split; [unfold store at 1; now rewrite F|].
  pose proof (_train_models_frame lib
    (set_data_file (Json (others user (store s))) s)) as (_ & _ & D & C).
  rewrite <- E in D, C. simpl in D, C. rewrite D, C. auto.
Qed.

Lemma filter_user_app (u : option Z) (a b : list Row) :
  filter_user u (a ++ b) = filter_user u a ++ filter_user u b.
Proof. destruct u; simpl; [apply filter_app|reflexivity]. Qed.

Lemma others_app (u : Z) (a b : list Row) :
  others u (a ++ b) = others u a ++ others u b.
Proof. apply filter_app. Qed.

Lemma others_none (u : Z) (data : list Row) :
  filter_user (Some u) data = [] -> others u data = data.
Proof.
  unfold filter_user, others. induction data as [|r data IH]; simpl; auto.
  destruct (user_id r =? u); simpl; [discriminate|]. intros H. now rewrite IH.
Qed.

Lemma others_idem (u : Z) (data : list Row) :
  others u (others u data) = others u data.
Proof.
  apply others_none. apply filter_user_others_same.
Qed.

Lemma others_comm (u v : Z) (data : list Row) :
  others u (others v data) = others v (others u data).
Proof.
  unfold others. induction data as [|r data IH]; simpl; auto.
  destruct (user_id r =? v) eqn:Ev, (user_id r =? u) eqn:Eu; simpl;
    rewrite ?Ev, ?Eu; simpl; now rewrite IH.
Qed.

Lemma untrained_reports (s : State) :
  price_model_trained s = false -> profit_model_trained s = false ->
  reports_untrained s.
Proof.
  intros H1 H2. repeat split; auto.
  - now apply untrained_prices.
  - now apply untrained_profits.
Qed.

Lemma small_store_untrained (lib : Sklearn) (s : State) :
  len (store s) < 3 -> reports_untrained (snd (_train_models lib s)).
Proof.
  intros Hlen. pose proof (_train_models_flags lib s) as [Hp Hq].
  simpl in Hp, Hq. apply untrained_reports.
  - destruct (price_model_trained _); [|reflexivity].
    destruct Hp as [Hp _]. destruct (Hp eq_refl). lia.
  - destruct (profit_model_trained _); [|reflexivity].
    destruct Hq as [Hq _]. destruct (Hq eq_refl). lia.
Qed.

Lemma submit_state (lib : Sklearn) (t : datetime) (user : Z)
      (v : Q * Q * Q * Q * Q) (s : State) :
  disk s = Writable ->
  store (submit lib t user v s) = store s ++ [submitted t user v]
  /\ disk (submit lib t user v s) = Writable
  /\ submit lib t user v s
     = snd (_train_models lib
              (set_data_file (Json (store s ++ [submitted t user v]))
                 (at_time t s))).
Proof.
  intros Hd. destruct v as [[[[price harvest] cost] revenue] profit].
  unfold submit, submitted.
  destruct (add_user_data_state lib (at_time t s) user price harvest cost
              revenue profit Hd) as (St & D & _ & E).
  auto.
Qed.

(** ** The float64 forecasts *)

Lemma float_profits_overflow (s : State) (periods : Z) :
  profit_model_trained s = true -> store s <> [] -> 1 <= periods ->
  MAXORDINAL < toordinal (clock s) + 30 * periods ->
  exists msg,
    fst (Float64.predict_future_profits periods s) = Ok (None, Some msg).
Proof.
  intros Ht Hne Hp Hmax.
  change (post (Float64.predict_future_profits periods) s
            (fun r _ => exists msg, r = Ok (None, Some msg))).
  unfold Float64.predict_future_profits. apply post_bind, post_gets.
  rewrite Ht. simpl negb. cbv iota.
  apply post_try, post_bind, post_load_data.
  destruct (Z.eqb_spec (len (store s)) 0) as [E|_].
  { destruct (store s); [congruence|]. unfold len in E. simpl in E. lia. }
  apply post_bind, post_gets, post_bind. unfold post at 1.
  match goal with
  | |- context [for_each ?l ?body s] =>
      pose proof (for_each_raises l body periods) as R
  end.
  rewrite In_range1 in R. specialize (R (conj Hp (Z.le_refl _))).
  match type of R with
  | ?H -> _ => assert H as Hbad
  end.
  { intros s0. unfold bind at 1, lift at 1.
    pose proof (add_days_overflow (clock s) (periods * 30)) as O.
    destruct (add_days (clock s) (periods * 30)); [|reflexivity].
    discriminate O. lia. }
  specialize (R Hbad s).
  destruct (fst _) as [bs|e]; [discriminate|]. steps. eauto.
Qed.

Lemma len_zero_nil {A} (l : list A) : (len l =? 0) = true <-> l = [].
Proof.
  unfold len. destruct l; simpl; split; intros H; try reflexivity;
    try discriminate.
Qed.

Lemma float_first_of_reads (preds : list Float64.float64) :
  reads (Float64.first_of preds).
Proof.
  intros s Q HQ. destruct preds; unfold Float64.first_of; steps; apply HQ.
Qed.

Lemma float_prices_reads (periods : Z) :
  reads (Float64.predict_future_prices periods).
Proof.
  intros s Q HQ. unfold Float64.predict_future_prices. steps; try apply HQ.
  apply reads_for_each.
  - intros i s0 Q0 HQ0. steps'; try apply HQ0.
    all: apply float_first_of_reads; intros r; destruct r; steps; apply HQ0.
  - intros [bs|e]; steps; apply HQ.
Qed.

Lemma float_profits_reads (periods : Z) :
  reads (Float64.predict_future_profits periods).
Proof.
  intros s Q HQ. unfold Float64.predict_future_profits. steps; try apply HQ.
  apply reads_for_each.
  - intros i s0 Q0 HQ0. steps'; try apply HQ0.
    all: apply float_first_of_reads; intros r; destruct r; steps; apply HQ0.
  - intros [bs|e]; steps; apply HQ.
Qed.

(** ** Computations that do not touch the data file *)

Lemma file_blind_ret {A} (a : A) : file_blind (ret a).
Proof. intros f s. reflexivity. Qed.

Lemma file_blind_lift {A} (r : res A) : file_blind (lift r).
Proof. intros f s. reflexivity. Qed.

Lemma file_blind_gets {A} (g : State -> A) :
  (forall f s, g (set_data_file f s) = g s) -> file_blind (gets g).
Proof. intros H f s. unfold gets. simpl. now rewrite H. Qed.

Lemma file_blind_bind {A B} (m : M A) (k : A -> M B) :
  file_blind m -> (forall a, file_blind (k a)) -> file_blind (bind m k).
Proof.
  intros Hm Hk f s. unfold bind. rewrite Hm.
  destruct (m s) as [[a|e] s1]; simpl; [apply Hk|reflexivity].
Qed.

Lemma file_blind_try {A} (m : M A) (h : exn -> M A) :
  file_blind m -> (forall e, file_blind (h e)) -> file_blind (try_except m h).
Proof.
  intros Hm Hh f s. unfold try_except. rewrite Hm.
  destruct (m s) as [[a|e] s1]; simpl; [reflexivity|apply Hh].
Qed.

Lemma file_blind_for_each {A B} (l : list A) (body : A -> M B) :
  (forall a, file_blind (body a)) -> file_blind (for_each l body).
Proof.
  intros Hb. induction l as [|a l IH]; simpl.
  - apply file_blind_ret.
  - apply file_blind_bind; [apply Hb|]. intros b.
    apply file_blind_bind; [apply IH|]. intros bs. apply file_blind_ret.
Qed.

Lemma file_blind_first_of (preds : list Float64.float64) :
  file_blind (Float64.first_of preds).
Proof. destruct preds; [apply file_blind_lift|apply file_blind_ret]. Qed.

Ltac blind :=
  repeat first
    [ apply file_blind_ret
    | apply file_blind_lift
    | apply file_blind_first_of
    | apply file_blind_gets; reflexivity
    | apply file_blind_for_each; intros ?
    | apply file_blind_bind; [|intros ?]
    | apply file_blind_try; [|intros ?] ].

Lemma last_five (older recent : list Row) :
  length recent = 5%nat ->
  last_k (Z.min 5 (len (older ++ recent))) (older ++ recent) = recent.
Proof.
  intros H. unfold last_k, len. rewrite length_app, H.
  replace (Z.min 5 (Z.of_nat (length older + 5))) with 5 by lia.
  simpl Z.eqb. cbv iota.
  replace (length older + 5 - Z.to_nat 5)%nat with (length older) by lia.
  rewrite skipn_app, skipn_all, Nat.sub_diag. reflexivity.
Qed.

Lemma len_app_five (older recent : list Row) :
  length recent = 5%nat -> (len (older ++ recent) =? 0) = false.
Proof.
  intros H. unfold len. rewrite length_app, H. apply Z.eqb_neq. lia.
Qed.

Lemma bind_gets {A B} (g : State -> A) (k : A -> M B) (s : State) :
  bind (gets g) k s = k (g s) s.
Proof. reflexivity. Qed.

Lemma bind_load_data {B} (k : list Row -> M B) (s : State) :
  bind load_data k s = k (store s) s.
Proof. unfold bind. now rewrite load_data_store. Qed.

(** ** The request handler *)

Lemma gt_zero_spec (x : Q) : gt_zero x = true <-> (0 < x)%Q.
Proof.
  unfold gt_zero. rewrite negb_true_iff. split.
  - intros H. apply Qnot_le_lt. intros L. apply Qle_bool_iff in L. congruence.
  - intros H. destruct (Qle_bool x 0) eqn:E; [|reflexivity].
    apply Qle_bool_iff in E. exfalso. apply (Qlt_not_le _ _ H E).
Qed.

Lemma try_except_ret_ok {A} (m : M A) (h : exn -> A) (s : State) :
  is_ok (fst (try_except m (fun e => ret (h e)) s)) = true.
Proof. unfold try_except. destruct (m s) as [[a|e] s']; reflexivity. Qed.

Section Handler.

Variable lib : Sklearn.

Variable float : string -> res Q.

Lemma handle_add_to_ml_parsed (form : string -> option string) (user : Z)
      (s : State) (cost revenue profit price harvest : Q) :
  parsed float form cost revenue profit price harvest ->
  handle_add_to_ml lib float form user s
  = if all_positive cost revenue price harvest
    then try_except
           (add_user_data lib user price harvest cost revenue profit ;;
            ret {| success := true;
                   reply_message := "Data successfully added to analysis" |})
           (fun e => ret {| success := false; reply_message := str e |}) s
    else (Ok {| success := false; reply_message := "Invalid data provided" |}, s).
Proof.
  intros (H1 & H2 & H3 & H4 & H5). unfold handle_add_to_ml, try_except.
  unfold bind at 1, lift at 1. rewrite H1.
  unfold bind at 1, lift at 1. rewrite H2.
  unfold bind at 1, lift at 1. rewrite H3.
  unfold bind at 1, lift at 1. rewrite H4.
  unfold bind at 1, lift at 1. rewrite H5.
  unfold all_positive.
  destruct (gt_zero cost), (gt_zero revenue), (gt_zero price),
    (gt_zero harvest); reflexivity.
Qed.

Lemma handle_add_to_ml_unparsed (form : string -> option string) (user : Z)
      (s : State) :
  (forall cost revenue profit price harvest,
     ~ parsed float form cost revenue profit price harvest) ->
  exists msg,
    handle_add_to_ml lib float form user s
    = (Ok {| success := false; reply_message := msg |}, s).
Proof.
  intros Hno. unfold handle_add_to_ml, try_except.
  unfold parsed in Hno.
  destruct (form_float float form "total_cost") as [c|e] eqn:E1;
    [|unfold bind, lift; eexists; reflexivity].
  destruct (form_float float form "total_revenue") as [r|e] eqn:E2;
    [|unfold bind, lift; eexists; reflexivity].
  destruct (form_float float form "net_profit") as [p|e] eqn:E3;
    [|unfold bind, lift; eexists; reflexivity].
  destruct (form_float float form "market_price") as [m|e] eqn:E4;
    [|unfold bind, lift; eexists; reflexivity].
  destruct (form_float float form "harvest_amount") as [h|e] eqn:E5;
    [|unfold bind, lift; eexists; reflexivity].
  exfalso. apply (Hno c r p m h). auto.
Qed.

End Handler.

(** ** The analytics page, call by call *)

Lemma analytics_post (lib : Sklearn) (user : Z) (clear_data : bool) (s : State)
      (Q : option string -> State -> Prop) :
  (clear_data = false -> Q None s) ->
  (clear_data = true ->
   post (clear_user_data lib user) s (fun r s' =>
     match r with
     | Ok _ => Q (Some "All your data has been cleared successfully!"%string) s'
     | Raise _ => Q (Some "Error clearing data. Please try again."%string) s'
     end)) ->
  post (analytics lib user clear_data) s (fun r _ =>
    exists page s1,
      r = Ok page /\ Q (flashed page) s1
      /\ fst (get_model_stats lib (Some user) s1) = Ok (page_stats page)
      /\ fst (get_historical_data (Some user) 3 s1)
         = Ok (page_historical_data page)
      /\ fst (predict_future_prices 3 s1)
         = Ok (page_price_predictions page, page_price_error page)
      /\ fst (predict_future_profits 3 s1)
         = Ok (page_profit_predictions page, page_profit_error page)).
Proof.
  intros Hget Hpost. unfold analytics. apply post_bind.
  assert (forall fl s1, Q fl s1 ->
            post (stats <- get_model_stats lib (Some user) ;;
                  historical_data <- get_historical_data (Some user) 3 ;;
                  price <- predict_future_prices 3 ;;
                  profit <- predict_future_profits 3 ;;
                  ret {| flashed := fl; page_stats := stats;
                         page_historical_data := historical_data;
                         page_price_predictions := fst price;
                         page_price_error := snd price;
                         page_profit_predictions := fst profit;
                         page_profit_error := snd profit |}) s1
              (fun r _ =>
                 exists page s2,
                   r = Ok page /\ Q (flashed page) s2
                   /\ fst (get_model_stats lib (Some user) s2)
                      = Ok (page_stats page)
                   /\ fst (get_historical_data (Some user) 3 s2)
                      = Ok (page_historical_data page)
                   /\ fst (predict_future_prices 3 s2)
                      = Ok (page_price_predictions page, page_price_error page)
                   /\ fst (predict_future_profits 3 s2)
                      = Ok (page_profit_predictions page,
                            page_profit_error page))) as Rest.
  { intros fl s1 HQ.
    apply post_bind. unfold post at 1.
    pose proof (get_model_stats_total lib (Some user) s1) as T1.
    unfold post in T1. destruct T1 as [T1 T1'].
    destruct (get_model_stats lib (Some user) s1) as [[stats|e] s2] eqn:E1;
      [|discriminate]. simpl in T1'. subst s2. simpl.
    apply post_bind. unfold post at 1.
    pose proof (get_historical_data_total (Some user) 3 s1) as T2.
    unfold post in T2. destruct T2 as [T2 T2'].
    destruct (get_historical_data (Some user) 3 s1) as [[hist|e] s2] eqn:E2;
      [|discriminate]. simpl in T2'. subst s2. simpl.
    apply post_bind. unfold post at 1.
    pose proof (predict_future_prices_total 3 s1) as T3.
    pose proof (predict_future_prices_reads 3 s1 (fun _ s' => s' = s1)
                  (fun _ => eq_refl)) as T3'.
    unfold post in T3, T3'.
    destruct (predict_future_prices 3 s1) as [[[p pe]|e] s2] eqn:E3;
      [|discriminate]. simpl in T3'. subst s2. simpl.
    apply post_bind. unfold post at 1.
    pose proof (predict_future_profits_total 3 s1) as T4.
    pose proof (predict_future_profits_reads 3 s1 (fun _ s' => s' = s1)
                  (fun _ => eq_refl)) as T4'.
    unfold post in T4, T4'.
    destruct (predict_future_profits 3 s1) as [[[q qe]|e] s2] eqn:E4;
      [|discriminate]. simpl in T4'. subst s2. simpl.
    apply post_ret. eexists _, s1. simpl.
    rewrite E1, E2, E3, E4. simpl. auto 10. }
  destruct clear_data.
  - apply post_try, post_bind.
    eapply post_weaken; [apply Hpost; reflexivity|].
    intros [[]|e] s1 H.
    + apply post_ret. now apply Rest.
    + apply post_ret. now apply Rest.
  - apply post_ret. apply Rest. now apply Hget.
Qed.

(** ** Weather codes *)

Lemma dict_get_default (mapping : list (Z * string)) (code : Z)
      (default : string) :
  ~ In code (map fst mapping) -> dict_get mapping code default = default.
Proof.
  induction mapping as [|[k v] rest IH]; simpl; [reflexivity|].
  intros H. destruct (Z.eqb_spec k code) as [->|_]; [tauto|].
  apply IH. tauto.
Qed.

Lemma dict_get_found (mapping : list (Z * string)) (code : Z)
      (default : string) :
  In code (map fst mapping) ->
  In (dict_get mapping code default) (map snd mapping).
Proof.
  induction mapping as [|[k v] rest IH]; simpl; [tauto|].
  intros H. destruct (Z.eqb_spec k code) as [->|N]; [now left|].
  right. apply IH. destruct H; [contradiction|assumption].
Qed.

(** * The claims *)

(** ** C1 *)

(** C1, as the code has it: the four reading operations
    ([predict_future_prices], [predict_future_profits],
    [get_historical_data], [get_model_stats]) never raise, for every
    argument, state and library behaviour.  [add_user_data] and
    [clear_user_data] return normally whenever the store can be persisted;
    when persisting fails, the [OSError] of [save_data] escapes to the
    caller (app.py wraps both calls in [try]/[except]). *)
Theorem predictor_exception_boundary (lib : Sklearn) (s : State) :
  (forall periods, is_ok (fst (predict_future_prices periods s)) = true)
  /\ (forall periods, is_ok (fst (predict_future_profits periods s)) = true)
  /\ (forall user limit,
        is_ok (fst (get_historical_data user limit s)) = true)
  /\ (forall user, is_ok (fst (get_model_stats lib user s)) = true)
  /\ (disk s = Writable ->
      forall user price harvest cost revenue profit,
        is_ok (fst (add_user_data lib user price harvest cost revenue profit s))
        = true
        /\ is_ok (fst (clear_user_data lib user s)) = true)
  /\ (disk s <> Writable ->
      forall user price harvest cost revenue profit,
        (exists msg,
           fst (add_user_data lib user price harvest cost revenue profit s)
           = Raise (OSError msg))
        /\ (exists msg,
              fst (clear_user_data lib user s) = Raise (OSError msg))).
Proof.
  repeat split.
  - intros; apply predict_future_prices_total.
  - intros; apply predict_future_profits_total.
  - intros; apply get_historical_data_total.
  - intros; apply get_model_stats_total.
  - destruct (add_user_data_writable lib s user price harvest cost revenue
                profit H) as [E _].
    rewrite E. reflexivity.
  - destruct (clear_user_data_writable lib s user H) as [E _].
    rewrite E. reflexivity.
  - apply (add_user_data_unwritable lib s user price harvest cost revenue
             profit H).
  - apply (clear_user_data_unwritable lib s user H).
Qed.

Lemma predictor_exception_boundary_witness :
  is_ok (fst (add_user_data Example.lib 2 4 15 120 60 (-60) Example.four_rows))
  = true
  /\ is_ok (fst (clear_user_data Example.lib 2 Example.four_rows)) = true.
Proof.
  apply (predictor_exception_boundary Example.lib Example.four_rows).
  reflexivity.
Defined.

(** C1 as stated fails: on a disk that refuses the write, [add_user_data]
    raises across the boundary. *)
Lemma add_user_data_raises_when_save_fails :
  fst (add_user_data Example.lib 2 4 15 120 60 (-60) Example.read_only)
  = Raise (OSError "Permission denied").
Proof. reflexivity. Qed.

(** ** C2 *)

(** C2: when the retrain sees fewer than three records, and in a freshly
    constructed predictor, both models report Untrained and both forecast
    calls return (null, the not-trained message) for every [periods]. *)
Theorem small_store_reports_untrained (lib : Sklearn) (s : State) :
  (len (store s) < 3 -> reports_untrained (snd (_train_models lib s)))
  /\ (forall f d t, reports_untrained (init f d t)).
Proof.
  assert (forall s0, price_model_trained s0 = false ->
                     profit_model_trained s0 = false ->
                     reports_untrained s0) as R.
  { intros s0 H1 H2. repeat split; auto.
    - now apply untrained_prices.
    - now apply untrained_profits. }
  split.
  - intros Hlen. pose proof (_train_models_flags lib s) as [Hp Hq].
    apply R.
    + destruct (price_model_trained _); [|reflexivity].
      destruct Hp as [Hp _]. destruct (Hp eq_refl). lia.
    + destruct (profit_model_trained _); [|reflexivity].
      destruct Hq as [Hq _]. destruct (Hq eq_refl). lia.
  - intros. apply R; reflexivity.
Qed.

Lemma small_store_reports_untrained_witness :
  reports_untrained (snd (_train_models Example.lib Example.two_rows)).
Proof.
  apply (proj1 (small_store_reports_untrained Example.lib Example.two_rows)).
  reflexivity.
Defined.

(** ** C3 *)

(** C3: a retrain never writes the data file, and when its [try] block
    raises, both models are left marked untrained, whatever the flags were
    before. *)
Theorem fit_exception_marks_untrained (lib : Sklearn) (s : State) :
  data_file (snd (_train_models lib s)) = data_file s
  /\ (fit_raises lib s ->
      price_model_trained (snd (_train_models lib s)) = false
      /\ profit_model_trained (snd (_train_models lib s)) = false).
Proof.
  split; [apply _train_models_frame|].
  intros [e He]. pose proof (_train_models_flags lib s) as [Hp Hq].
  split.
  - destruct (price_model_trained _); [|reflexivity].
    destruct Hp as [Hp _]. destruct (Hp eq_refl). congruence.
  - destruct (profit_model_trained _); [|reflexivity].
    destruct Hq as [Hq _]. destruct (Hq eq_refl). congruence.
Qed.

Lemma fit_exception_marks_untrained_witness :
  price_model_trained Example.trained = true
  /\ price_model_trained
       (snd (_train_models Example.failing_lib Example.trained)) = false
  /\ profit_model_trained
       (snd (_train_models Example.failing_lib Example.trained)) = false.
Proof.
  split; [reflexivity|].
  apply (proj2 (fit_exception_marks_untrained Example.failing_lib
                  Example.trained)).
  exists (ValueError "Input contains NaN."). reflexivity.
Defined.

(** ** C4 *)

(** C4: when the filtered store can be persisted, [clear_user_data u]
    returns normally and leaves exactly the records of the other users, in
    their stored order; afterwards [get_historical_data u] is empty for
    every limit, and the records of every other user are the same list as
    before. *)
Theorem clear_user_data_removes_exactly (lib : Sklearn) (s : State) (u : Z) :
  disk s = Writable ->
  fst (clear_user_data lib u s) = Ok tt
  /\ store (snd (clear_user_data lib u s))
     = filter (fun item => negb (user_id item =? u)) (store s)
  /\ (forall limit,
        fst (get_historical_data (Some u) limit (snd (clear_user_data lib u s)))
        = Ok [])
  /\ (forall v, v <> u ->
        filter (fun item => user_id item =? v)
               (store (snd (clear_user_data lib u s)))
        = filter (fun item => user_id item =? v) (store s)).
Proof.
  intros Hd. destruct (clear_user_data_writable lib s u Hd) as (E & F & _).
  assert (store (snd (clear_user_data lib u s)) = others u (store s)) as St
    by (unfold store at 1; now rewrite F).
  repeat split; auto.
  - intros limit. rewrite get_historical_data_empty; [reflexivity|].
    rewrite St. apply filter_user_others_same.
  - intros v Hv. rewrite St. now apply (filter_user_others_other u v).
Qed.

Lemma clear_user_data_removes_exactly_witness :
  store (snd (clear_user_data Example.lib 2 Example.four_rows))
  = [Example.r1; Example.r2; Example.r3]
  /\ fst (get_historical_data (Some 2) 3
            (snd (clear_user_data Example.lib 2 Example.four_rows))) = Ok [].
Proof.
  destruct (clear_user_data_removes_exactly Example.lib Example.four_rows 2
              eq_refl) as (_ & St & Hist & _).
  split; [rewrite St; reflexivity|apply Hist].
Defined.

(** ** C5 *)

(** C5: after any retrain, each trained flag is set exactly when the store
    had at least three records and the [try] block completed; the previous
    value of the flag plays no part.  So Untrained becomes Trained only on
    such a fit, Trained becomes Untrained on fewer than three records or on
    an exception, and a failed retrain never leaves a flag set. *)
Theorem trained_flag_transitions (lib : Sklearn) (s : State) :
  (price_model_trained (snd (_train_models lib s)) = true
   <-> fit_succeeds lib s)
  /\ (profit_model_trained (snd (_train_models lib s)) = true
      <-> fit_succeeds lib s).
Proof. exact (_train_models_flags lib s). Qed.

Lemma trained_flag_transitions_witness :
  price_model_trained (snd (_train_models Example.lib Example.four_rows)) = true
  /\ price_model_trained
       (snd (clear_user_data Example.lib 1
               (snd (_train_models Example.lib Example.four_rows)))) = false.
Proof.
  split.
  - apply (proj1 (trained_flag_transitions Example.lib Example.four_rows)).
    split; [discriminate|reflexivity].
  - reflexivity.
Defined.

(** ** C6 *)



(** ** C7 *)

(** C7: every entry that [predict_future_prices] returns, in any state and
    for any [periods], carries a price that is non-negative and a whole
    number of hundredths: the raw prediction clamped at zero and rounded to
    two places. *)
Theorem price_predictions_clamped (s : State) (periods : Z)
        (l : list PricePoint) (err : option string) :
  fst (predict_future_prices periods s) = Ok (Some l, err) ->
  Forall clamped_rounded l.
Proof.
  intros H. exact (predict_future_prices_entries periods s l err H).
Qed.

Lemma price_predictions_clamped_witness :
  Forall clamped_rounded
    [ {| date := "2026-12-03"; predicted_price := 0 # 100 |};
      {| date := "2027-01-02"; predicted_price := 0 # 100 |} ].
Proof.
  apply (price_predictions_clamped Example.trained 2 _ None).
  reflexivity.
Defined.

(** ** C8 *)

(** C8: when the store can be persisted, [add_user_data] returns normally
    and reading the file back gives what was read before the call followed
    by exactly one new record; its six fields are the six arguments and its
    timestamp is the clock at the call. *)
Theorem add_user_data_round_trip (lib : Sklearn) (s : State) (user : Z)
        (price harvest cost revenue profit : Q) :
  disk s = Writable ->
  exists before,
    fst (load_data s) = Ok before
    /\ fst (add_user_data lib user price harvest cost revenue profit s)
       = Ok (before ++ [new_row_of s user price harvest cost revenue profit])
    /\ fst (load_data
              (snd (add_user_data lib user price harvest cost revenue profit s)))
       = Ok (before ++ [new_row_of s user price harvest cost revenue profit]).
Proof.
  intros Hd. exists (store s).
  destruct (add_user_data_writable lib s user price harvest cost revenue
              profit Hd) as (E & F & _).
  rewrite !load_data_store. repeat split; auto.
  simpl. unfold store. now rewrite F.
Qed.

Lemma add_user_data_round_trip_witness :
  fst (load_data
         (snd (add_user_data Example.lib 2 4 15 120 60 (-60) Example.two_rows)))
  = Ok [Example.r1; Example.r2;
        {| user_id := 2; market_price := 4; harvest_amount := 15;
           total_cost := 120; total_revenue := 60; net_profit := -60;
           timestamp := "2026-11-03T19:15:07" |}].
Proof.
  destruct (add_user_data_round_trip Example.lib Example.two_rows
              2 4 15 120 60 (-60) eq_refl) as (before & B & _ & A).
  rewrite A. injection B as <-. reflexivity.
Defined.

(** ** C9 *)

(** C9: forecasts are not per user.  The analytics page shows every
    logged-in user the same four forecast fields from a given state; the
    [try] block of a retrain is the same computation on a store and on that
    store with every owner erased; and with two records of user 1 in the
    file, whenever the retrain that follows an insertion by user 2 fits the
    price model, the forecasts shown to user 1 differ from those shown
    before the insertion. *)
Theorem forecasts_shared_across_users (lib : Sklearn) :
  (forall s u1 u2,
     forecasts_of (fst (analytics lib u1 false s))
     = forecasts_of (fst (analytics lib u2 false s)))
  /\ (forall data, train_body lib (map anonymise data) = train_body lib data)
  /\ (price_model_trained
        (snd (add_user_data lib 2 4 15 120 60 (-60) Example.two_rows)) = true ->
      forecasts_of (fst (analytics lib 1 false Example.two_rows))
      <> forecasts_of
           (fst (analytics lib 1 false
                   (snd (add_user_data lib 2 4 15 120 60 (-60)
                           Example.two_rows))))).
Proof.
  repeat split.
  - intros. now rewrite !analytics_forecasts.
  - apply train_body_anonymise.
  - intros Ht. rewrite !analytics_forecasts.
    pose proof (trained_not_untrained 3 _ Ht) as N.
    unfold forecasts_in at 2.
    destruct (fst (predict_future_prices 3 (snd _))) as [[p e]|x];
      [|vm_compute; discriminate].
    destruct (fst (predict_future_profits 3 (snd _))) as [[q e']|x];
      [|vm_compute; discriminate].
    vm_compute forecasts_in. simpl. intros [= <- <-]. now apply N.
Qed.

Lemma forecasts_shared_across_users_witness :
  forecasts_of (fst (analytics Example.lib 1 false Example.two_rows))
  <> forecasts_of
       (fst (analytics Example.lib 1 false
               (snd (add_user_data Example.lib 2 4 15 120 60 (-60)
                       Example.two_rows)))).
Proof.
  apply (proj2 (proj2 (forecasts_shared_across_users Example.lib))).
  reflexivity.
Defined.

(** ** C10 *)

(** C10, as the code has it: in a trained state with a non-empty store and
    a valid clock, whose mean recent features are finite floats that the
    fitted scalers map to finite values, for every [periods >= 0] whose last
    date, [30 * periods] days after the clock, is not after 9999-12-31, both
    forecast calls return a list of exactly [periods] entries with a null
    error; for [periods = 0] the lists are empty.  The statement is about
    the methods in float64 arithmetic ([Float64]), where a mean or a
    scaled feature that is not finite makes the call return an error
    message instead. *)
Theorem forecast_has_periods_entries_in_range (s : State) (periods : Z) :
  price_model_trained s = true -> profit_model_trained s = true ->
  fitted_on 2 (price_scaler s) (price_model s) = true ->
  fitted_on 3 (profit_scaler s) (profit_model s) = true ->
  Float64.finite_through (price_scaler s) (Float64.price_inputs (store s))
  = true ->
  Float64.finite_through (profit_scaler s) (Float64.profit_inputs (store s))
  = true ->
  store s <> [] -> valid_clock s ->
  0 <= periods -> toordinal (clock s) + 30 * periods <= MAXORDINAL ->
  exists prices profits,
    Float64.predict_future_prices periods s = (Ok (Some prices, None), s)
    /\ len prices = periods
    /\ Float64.predict_future_profits periods s = (Ok (Some profits, None), s)
    /\ len profits = periods
    /\ (periods = 0 -> prices = [] /\ profits = []).
Proof.
  intros Ht1 Ht2 Hf1 Hf2 Hr1 Hr2 Hne Hclock Hp Hmax.
  destruct (fitted_on_inv _ _ _ Hf1) as (sc1 & m1 & Es1 & Em1 & _).
  destruct (fitted_on_inv _ _ _ Hf2) as (sc2 & m2 & Es2 & Em2 & _).
  rewrite Es1, Em1 in Hf1. rewrite Es2, Em2 in Hf2.
  rewrite Es1 in Hr1. rewrite Es2 in Hr2.
  pose proof (float_prices_in_range s sc1 m1 periods Ht1 Hne Es1 Em1 Hf1 Hr1
                Hclock Hmax) as E1.
  pose proof (float_profits_in_range s sc2 m2 periods Ht2 Hne Es2 Em2 Hf2 Hr2
                Hclock Hmax) as E2.
  eexists _, _. rewrite E1, E2. repeat split.
  - rewrite len_map. now apply len_range1.
  - rewrite len_map. now apply len_range1.
  - now subst periods.
  - now subst periods.
Qed.

Lemma forecast_has_periods_entries_in_range_witness :
  exists prices profits,
    Float64.predict_future_prices 12 Example.trained
    = (Ok (Some prices, None), Example.trained)
    /\ len prices = 12
    /\ Float64.predict_future_profits 12 Example.trained
       = (Ok (Some profits, None), Example.trained)
    /\ len profits = 12.
Proof.
  assert (store Example.trained <> []) as Hne by discriminate.
  assert (valid_clock Example.trained) as Hclock by (split; discriminate).
  assert (0 <= 12) as Hp by discriminate.
  assert (toordinal (clock Example.trained) + 30 * 12 <= MAXORDINAL) as Hmax
    by discriminate.
  destruct (forecast_has_periods_entries_in_range Example.trained 12
              eq_refl eq_refl eq_refl eq_refl eq_refl eq_refl
              Hne Hclock Hp Hmax)
    as (prices & profits & E1 & L1 & E2 & L2 & _).
  exists prices, profits. auto.
Defined.

(** C10 as stated fails: a hundred thousand periods from 2026 run past the
    last representable date, and the call returns a null result with an
    error message instead of a list, in exact and in float64 arithmetic
    alike. *)
Lemma forecast_overflows_for_large_periods :
  (exists msg,
     fst (predict_future_prices 100000 Example.trained) = Ok (None, Some msg))
  /\ (exists msg,
        fst (Float64.predict_future_prices 100000 Example.trained)
        = Ok (None, Some msg)).
Proof.
  split.
  - apply predict_future_prices_overflow;
      solve [reflexivity | discriminate].
  - apply float_prices_overflow;
      solve [reflexivity | discriminate].
Qed.

(** * Further properties *)

(** ** X1 *)

(** X1: [get_historical_data] shows the most recent records, most recent
    first: the rows behind the entries it returns are sorted by timestamp,
    latest first, and every matching record that is left out is no more
    recent than any record shown.  Shown and left-out records together are
    the matching records of the store. *)
Theorem history_most_recent_first (user : option Z) (limit : Z) (s : State) :
  exists rows rest,
    fst (get_historical_data user limit s) = Ok (chart_points rows)
    /\ Permutation (rows ++ rest) (filter_user user (store s))
    /\ recent_first rows
    /\ forall x y, In x rows -> In y rest -> not_after y x.
Proof.
  rewrite get_historical_data_eq. cbn [fst].
  destruct (slice_to_firstn limit (sorted_desc (filter_user user (store s))))
    as (k & -> & _).
  set (sorted := sorted_desc (filter_user user (store s))).
  exists (firstn k sorted), (skipn k sorted).
  pose proof (sorted_desc_sorted (filter_user user (store s))) as Hs.
  fold sorted in Hs. rewrite <- (firstn_skipn k sorted) in Hs.
  repeat split.
  - rewrite firstn_skipn. apply sorted_desc_perm.
  - clear -Hs. unfold recent_first in *.
    induction (firstn k sorted) as [|r l IH]; [constructor|].
    simpl in Hs. inversion Hs as [|? ? Hs' Hr]; subst.
    constructor; [auto|]. rewrite Forall_app in Hr. tauto.
  - now apply recent_first_app_l.
Qed.

(** ** X2 *)

(** X2: [get_historical_data] never fails; it returns [min(limit, n)]
    entries of the [n] matching records for a limit that is not negative
    (and all but the last [-limit] for a negative one, as the slice
    [[:limit]] does), labelled [Month 1], [Month 2], ... in that order. *)
Theorem history_length_and_labels (user : option Z) (limit : Z) (s : State) :
  exists points,
    fst (get_historical_data user limit s) = Ok points
    /\ len points
       = (if 0 <=? limit
          then Z.min limit (len (filter_user user (store s)))
          else Z.max 0 (len (filter_user user (store s)) + limit))
    /\ map month points
       = map (fun i => ("Month " ++ str_int i)%string) (range1 (len points)).
Proof.
  rewrite get_historical_data_eq. cbn [fst]. eexists. split; [reflexivity|].
  destruct (slice_to_firstn limit (sorted_desc (filter_user user (store s))))
    as (k & E & L).
  rewrite E. rewrite len_chart_points. split.
  - rewrite L. unfold len. now rewrite (Permutation_length (sorted_desc_perm _)).
  - unfold chart_points. rewrite map_map.
    set (rows := firstn k _). unfold range1, len. rewrite Nat2Z.id.
    generalize 1. induction rows as [|r rows IH]; intros i; simpl;
      [reflexivity|]. now rewrite IH.
Qed.

(** ** X3 *)

(** X3: with a user id, every entry of [get_historical_data] carries the
    market price and net profit of a stored record of that user. *)
Theorem history_shows_only_own_records (u limit : Z) (s : State)
        (points : list HistoryPoint) :
  fst (get_historical_data (Some u) limit s) = Ok points ->
  Forall (fun p => exists r, In r (store s) /\ user_id r = u
                             /\ hist_market_price p = market_price r
                             /\ hist_net_profit p = net_profit r) points.
Proof.
  rewrite get_historical_data_eq. cbn [fst].
  destruct (slice_to_firstn limit (sorted_desc (filter_user (Some u) (store s))))
    as (k & -> & _).
  remember (firstn k (sorted_desc (filter_user (Some u) (store s)))) as rows
    eqn:Er.
  intros H. injection H as <-.
  assert (forall r, In r rows -> In r (store s) /\ user_id r = u) as Hin.
  { intros r Hr. subst rows. apply filter_user_In.
    eapply Permutation_in; [apply sorted_desc_perm|].
    rewrite <- (firstn_skipn k). apply in_or_app. now left. }
  clear Er. unfold chart_points. apply Forall_forall. intros p Hp.
  apply in_map_iff in Hp as ([i r] & <- & Hir).
  apply in_combine_r in Hir. destruct (Hin r Hir). exists r. simpl. auto.
Qed.

Lemma history_shows_only_own_records_witness :
  Forall (fun p => exists r, In r (store Example.trained) /\ user_id r = 1
                             /\ hist_market_price p = market_price r
                             /\ hist_net_profit p = net_profit r)
    [ {| month := "Month 1"; hist_market_price := 7; hist_net_profit := -90 |};
      {| month := "Month 2"; hist_market_price := 6; hist_net_profit := -80 |} ].
Proof.
  apply (history_shows_only_own_records 1 2 Example.trained). reflexivity.
Defined.

(** ** X4 *)

(** X4: after [clear_user_data u] on a writable disk,
    [get_model_stats u] is the no-data dictionary: zero data points,
    [model_trained] false, the message [No data available], one user and
    [Not trained], whatever the models trained on the other users' records
    say. *)
Theorem stats_after_clear_report_no_data (lib : Sklearn) (s : State) (u : Z) :
  disk s = Writable ->
  exists st,
    fst (get_model_stats lib (Some u) (snd (clear_user_data lib u s))) = Ok st
    /\ total_data_points st = 0
    /\ model_trained st = false
    /\ message st = Some "No data available"%string
    /\ total_users st = 1
    /\ training_status st = "Not trained"%string
    /\ model_performance st = None.
Proof.
  intros Hd. destruct (clear_user_data_writable lib s u Hd) as (_ & F & _).
  rewrite get_model_stats_no_data.
  - eexists. split; [reflexivity|]. simpl. auto 10.
  - unfold store. rewrite F. apply filter_user_others_same.
Qed.

Lemma stats_after_clear_report_no_data_witness :
  price_model_trained (snd (clear_user_data Example.lib 2 Example.four_rows))
  = true
  /\ exists st,
       fst (get_model_stats Example.lib (Some 2)
              (snd (clear_user_data Example.lib 2 Example.four_rows))) = Ok st
       /\ model_trained st = false.
Proof.
  split; [reflexivity|].
  destruct (stats_after_clear_report_no_data Example.lib Example.four_rows 2
              eq_refl) as (st & E & _ & T & _).
  exists st. auto.
Defined.

(** ** X5 *)

(** X5: when records match, [get_model_stats] returns the full
    dictionary and leaves the state alone: the number of matching records,
    no message, [model_trained] the conjunction of the two flags,
    [Trained] or else [Partially trained] (also when neither model is
    trained), and the number of distinct user ids, which is 1 when a user
    id is given. *)
Theorem stats_describe_the_rows (lib : Sklearn) (user : option Z) (s : State) :
  filter_user user (store s) <> [] ->
  exists st,
    get_model_stats lib user s = (Ok st, s)
    /\ total_data_points st = len (filter_user user (store s))
    /\ message st = None
    /\ model_trained st = price_model_trained s && profit_model_trained s
    /\ training_status st
       = (if price_model_trained s && profit_model_trained s
          then "Trained" else "Partially trained")%string
    /\ total_users st
       = len (nodup Z.eq_dec (map user_id (filter_user user (store s))))
    /\ (forall u, user = Some u -> total_users st = 1).
Proof.
  intros Hne.
  pose proof (get_model_stats_with_data lib user s Hne) as H. unfold post in H.
  destruct (get_model_stats lib user s) as [r s']. simpl in H.
  destruct H as (-> & st & -> & D).
  destruct D as (D1 & D2 & D3 & D4 & D5 & _).
  exists st. repeat split; auto.
  intros u ->. rewrite D5. rewrite (nodup_constant u); [reflexivity| |].
  - destruct (filter_user (Some u) (store s)); [congruence|discriminate].
  - intros x Hx. apply in_map_iff in Hx as (r & <- & Hr).
    now apply filter_user_In in Hr.
Qed.

Lemma stats_describe_the_rows_witness :
  exists st,
    get_model_stats Example.lib (Some 1) Example.trained
    = (Ok st, Example.trained)
    /\ total_data_points st = 3 /\ total_users st = 1.
Proof.
  assert (filter_user (Some 1) (store Example.trained) <> []) as Hne
    by discriminate.
  destruct (stats_describe_the_rows Example.lib (Some 1) Example.trained Hne)
    as (st & E & D1 & _ & _ & _ & _ & D5).
  exists st. rewrite D1, (D5 1 eq_refl). repeat split; auto.
Defined.

(** ** X6 *)

(** X6: the date range of [get_model_stats] is the least and the
    greatest timestamp string of the matching records: both occur among
    them and every matching record lies between them. *)
Theorem stats_date_range_spans_the_rows (lib : Sklearn) (user : option Z)
        (s : State) :
  filter_user user (store s) <> [] ->
  exists st first last,
    fst (get_model_stats lib user s) = Ok st
    /\ date_range st = Some (first, last)
    /\ In first (map timestamp (filter_user user (store s)))
    /\ In last (map timestamp (filter_user user (store s)))
    /\ forall r, In r (filter_user user (store s)) ->
                 String.leb first (timestamp r) = true
                 /\ String.leb (timestamp r) last = true.
Proof.
  intros Hne.
  pose proof (get_model_stats_with_data lib user s Hne) as H. unfold post in H.
  destruct H as (_ & st & E & D).
  destruct D as (_ & _ & _ & _ & _ & first & last & R & Hmin & Hmax).
  apply py_min_spec in Hmin as (I1 & L1). apply py_max_spec in Hmax as (I2 & L2).
  exists st, first, last. repeat split; auto.
  - apply L1. now apply in_map.
  - apply L2. now apply in_map.
Qed.

Lemma stats_date_range_spans_the_rows_witness :
  exists st,
    fst (get_model_stats Example.lib None Example.trained) = Ok st
    /\ date_range st
       = Some ("2026-08-01T10:00:00"%string, "2026-10-15T10:00:00"%string).
Proof.
  assert (filter_user None (store Example.trained) <> []) as Hne by discriminate.
  destruct (stats_date_range_spans_the_rows Example.lib None Example.trained
              Hne) as (st & first & last & E & R & _).
  exists st. split; [exact E|].
  assert (Ok st = fst (get_model_stats Example.lib None Example.trained)) as E'
    by (symmetry; exact E).
  vm_compute in E'. injection E' as ->. reflexivity.
Defined.

(** ** X7 *)

(** X7: when [_train_models] leaves the price flag set, both scalers
    and both regressions are the ones the library returned on this store:
    each scaler fitted on the features of all records, each regression on
    the training part of the split of the scaled features. *)
Theorem trained_models_are_fitted_on_the_store (lib : Sklearn) (s : State) :
  price_model_trained (snd (_train_models lib s)) = true ->
  (exists sc m,
     price_scaler (snd (_train_models lib s)) = Some sc
     /\ price_model (snd (_train_models lib s)) = Some m
     /\ price_fit_of lib (store s) sc m)
  /\ (exists sc m,
        profit_scaler (snd (_train_models lib s)) = Some sc
        /\ profit_model (snd (_train_models lib s)) = Some m
        /\ profit_fit_of lib (store s) sc m).
Proof. exact (_train_models_fitted lib s). Qed.

Lemma trained_models_are_fitted_on_the_store_witness :
  exists sc m,
    price_scaler (snd (_train_models Example.lib Example.four_rows)) = Some sc
    /\ price_model (snd (_train_models Example.lib Example.four_rows)) = Some m
    /\ scaler_fit Example.lib (price_features_of (store Example.four_rows))
       = Ok sc.
Proof.
  destruct (trained_models_are_fitted_on_the_store Example.lib
              Example.four_rows eq_refl) as ((sc & m & A & B & C & _) & _).
  exists sc, m. auto.
Defined.

(** ** X8 *)

(** X8: [_train_models] never raises, and it leaves the two flags
    equal: no retrain ends with one model trained and the other not. *)
Theorem retrain_sets_both_flags_alike (lib : Sklearn) (s : State) :
  price_model_trained (snd (_train_models lib s))
  = profit_model_trained (snd (_train_models lib s))
  /\ fst (_train_models lib s) = Ok tt.
Proof.
  split; [|apply _train_models_frame].
  pose proof (_train_models_flags lib s) as [Hp Hq]. simpl in Hp, Hq.
  destruct (price_model_trained _) eqn:E1, (profit_model_trained _) eqn:E2;
    try reflexivity.
  - symmetry. apply Hq, Hp. reflexivity.
  - apply Hp, Hq. reflexivity.
Qed.

(** ** X9 *)

(** X9: when the disk refuses the write, [add_user_data] and
    [clear_user_data] stop before retraining: models, scalers and flags
    are what they were, and on a read-only disk so is the data file. *)
Theorem failed_save_keeps_the_models (lib : Sklearn) (s : State) (user : Z)
        (price harvest cost revenue profit : Q) :
  disk s <> Writable ->
  attributes (snd (add_user_data lib user price harvest cost revenue profit s))
  = attributes s
  /\ attributes (snd (clear_user_data lib user s)) = attributes s
  /\ (disk s = ReadOnly ->
      data_file (snd (add_user_data lib user price harvest cost revenue profit s))
      = data_file s
      /\ data_file (snd (clear_user_data lib user s)) = data_file s).
Proof.
  intros Hd.
  assert (post (add_user_data lib user price harvest cost revenue profit) s
            (fun _ s' => attributes s' = attributes s
                         /\ (disk s = ReadOnly -> data_file s' = data_file s)))
    as A.
  { unfold add_user_data. apply post_bind, post_load_data, post_bind, post_gets.
    apply post_bind, post_save_data.
    destruct (disk s); [congruence| |]; split; auto; discriminate. }
  assert (post (clear_user_data lib user) s
            (fun _ s' => attributes s' = attributes s
                         /\ (disk s = ReadOnly -> data_file s' = data_file s)))
    as C.
  { unfold clear_user_data. apply post_bind, post_load_data.
    apply post_bind, post_save_data.
    destruct (disk s); [congruence| |]; split; auto; discriminate. }
  unfold post in A, C. destruct A, C. auto.
Qed.

Lemma failed_save_keeps_the_models_witness :
  attributes (snd (clear_user_data Example.failing_lib 1
                     Scenario.trained_read_only))
  = attributes Scenario.trained_read_only
  /\ price_model_trained Scenario.trained_read_only = true.
Proof.
  split; [|reflexivity].
  assert (disk Scenario.trained_read_only <> Writable) as Hd by discriminate.
  apply (failed_save_keeps_the_models Example.failing_lib
           Scenario.trained_read_only 1 0 0 0 0 0 Hd).
Defined.

(** ** X10 *)

(** X10: [add_user_data] on a writable disk adds one record to the
    records of its user and leaves every other user's records and history
    as they were. *)
Theorem add_user_data_keeps_other_users (lib : Sklearn) (s : State) (user : Z)
        (price harvest cost revenue profit : Q) :
  disk s = Writable ->
  len (filter_user (Some user)
         (store (snd (add_user_data lib user price harvest cost revenue
                        profit s))))
  = len (filter_user (Some user) (store s)) + 1
  /\ forall v, v <> user ->
       filter_user (Some v)
         (store (snd (add_user_data lib user price harvest cost revenue
                        profit s)))
       = filter_user (Some v) (store s)
       /\ forall limit,
            fst (get_historical_data (Some v) limit
                   (snd (add_user_data lib user price harvest cost revenue
                           profit s)))
            = fst (get_historical_data (Some v) limit s).
Proof.
  intros Hd.
  destruct (add_user_data_state lib s user price harvest cost revenue profit Hd)
    as (St & _).
  rewrite St, !filter_user_app. split.
  - unfold len. rewrite length_app. simpl. rewrite Z.eqb_refl. simpl. lia.
  - intros v Hv.
    assert (filter_user (Some v)
              [new_row_of s user price harvest cost revenue profit] = []) as E.
    { simpl. destruct (Z.eqb_spec user v); [congruence|reflexivity]. }
    rewrite filter_user_app, E, app_nil_r. split; [reflexivity|].
    intros limit. rewrite !get_historical_data_eq. cbn [fst].
    rewrite St, filter_user_app, E, app_nil_r. reflexivity.
Qed.

Lemma add_user_data_keeps_other_users_witness :
  fst (get_historical_data (Some 1) 3
         (snd (add_user_data Example.lib 2 4 15 120 60 (-60) Example.four_rows)))
  = fst (get_historical_data (Some 1) 3 Example.four_rows).
Proof.
  destruct (add_user_data_keeps_other_users Example.lib Example.four_rows 2
              4 15 120 60 (-60) eq_refl) as (_ & H).
  destruct (H 1) as (_ & G); [discriminate|]. apply G.
Defined.

(** ** X11 *)

(** X11: for a user without records, [add_user_data] followed by
    [clear_user_data] gives back the store as it was. *)
Theorem add_then_clear_restores_the_store (lib : Sklearn) (s : State)
        (user : Z) (price harvest cost revenue profit : Q) :
  disk s = Writable -> filter_user (Some user) (store s) = [] ->
  store (snd (clear_user_data lib user
                (snd (add_user_data lib user price harvest cost revenue
                        profit s))))
  = store s.
Proof.
  intros Hd Hnone.
  destruct (add_user_data_state lib s user price harvest cost revenue profit Hd)
    as (St & Hd' & _).
  destruct (clear_user_data_state lib _ user Hd') as (St' & _).
  rewrite St', St, others_app, (others_none _ _ Hnone).
  unfold others. simpl. rewrite Z.eqb_refl. simpl. apply app_nil_r.
Qed.

Lemma add_then_clear_restores_the_store_witness :
  store (snd (clear_user_data Example.lib 2
                (snd (add_user_data Example.lib 2 4 15 120 60 (-60)
                        Example.two_rows))))
  = [Example.r1; Example.r2].
Proof.
  apply (add_then_clear_restores_the_store Example.lib Example.two_rows 2
           4 15 120 60 (-60)); reflexivity.
Defined.

(** ** X12 *)

(** X12: clearing a user twice leaves the store that clearing once
    leaves, and clearing two users gives the same store in either order. *)
Theorem clear_user_data_idempotent_and_commutes (lib : Sklearn) (s : State)
        (u v : Z) :
  disk s = Writable ->
  store (snd (clear_user_data lib u (snd (clear_user_data lib u s))))
  = store (snd (clear_user_data lib u s))
  /\ store (snd (clear_user_data lib u (snd (clear_user_data lib v s))))
     = store (snd (clear_user_data lib v (snd (clear_user_data lib u s)))).
Proof.
  intros Hd.
  destruct (clear_user_data_state lib s u Hd) as (Su & Du & _).
  destruct (clear_user_data_state lib s v Hd) as (Sv & Dv & _).
  destruct (clear_user_data_state lib _ u Du) as (Suu & _).
  destruct (clear_user_data_state lib _ u Dv) as (Svu & _).
  destruct (clear_user_data_state lib _ v Du) as (Suv & _).
  rewrite Suu, Svu, Suv, Su, Sv. split; [apply others_idem|apply others_comm].
Qed.

Lemma clear_user_data_idempotent_and_commutes_witness :
  store (snd (clear_user_data Example.lib 1
                (snd (clear_user_data Example.lib 2 Example.four_rows))))
  = store (snd (clear_user_data Example.lib 2
                  (snd (clear_user_data Example.lib 1 Example.four_rows)))).
Proof.
  apply (clear_user_data_idempotent_and_commutes Example.lib Example.four_rows
           1 2 eq_refl).
Defined.

(** ** X13 *)

(** X13: with an empty store both forecasts return a null result and
    leave the state alone: the message is [No data available for
    prediction.] when the flag is set (a trained predictor whose file was
    emptied or removed since) and the not-trained message otherwise. *)
Theorem forecast_without_records (s : State) (periods : Z) :
  store s = [] ->
  Float64.predict_future_prices periods s
  = (Ok (None, Some (if price_model_trained s then NO_DATA else NOT_TRAINED)), s)
  /\ Float64.predict_future_profits periods s
     = (Ok (None, Some (if profit_model_trained s then NO_DATA else NOT_TRAINED)),
        s).
Proof.
  intros Hs. split; apply post_run.
  - unfold Float64.predict_future_prices. apply post_bind, post_gets.
    destruct (price_model_trained s); simpl negb; cbv iota;
      [|now apply post_ret].
    apply post_try, post_bind, post_load_data. rewrite Hs. simpl.
    now apply post_ret.
  - unfold Float64.predict_future_profits. apply post_bind, post_gets.
    destruct (profit_model_trained s); simpl negb; cbv iota;
      [|now apply post_ret].
    apply post_try, post_bind, post_load_data. rewrite Hs. simpl.
    now apply post_ret.
Qed.

Lemma forecast_without_records_witness :
  Float64.predict_future_prices 3 Scenario.trained_file_gone
  = (Ok (None, Some NO_DATA), Scenario.trained_file_gone).
Proof.
  apply (forecast_without_records Scenario.trained_file_gone 3). reflexivity.
Defined.

(** ** X14 *)

(** X14: for [periods <= 0], negative ones included, a trained forecast
    over a non-empty store returns the empty list with a null error; the
    loop body, with its means and library calls, never runs. *)
Theorem forecast_for_no_periods (s : State) (periods : Z) :
  periods <= 0 -> store s <> [] ->
  (price_model_trained s = true ->
   Float64.predict_future_prices periods s = (Ok (Some [], None), s))
  /\ (profit_model_trained s = true ->
      Float64.predict_future_profits periods s = (Ok (Some [], None), s)).
Proof.
  intros Hp Hne.
  assert (range1 periods = []) as R.
  { unfold range1. replace (Z.to_nat periods) with O by lia. reflexivity. }
  assert ((len (store s) =? 0) = false) as L.
  { destruct (len (store s) =? 0) eqn:E; [|reflexivity].
    apply len_zero_nil in E. contradiction. }
  split; intros Ht; apply post_run.
  - unfold Float64.predict_future_prices. apply post_bind, post_gets.
    rewrite Ht. simpl negb. cbv iota.
    apply post_try, post_bind, post_load_data.
    rewrite L. apply post_bind, post_gets. rewrite R. simpl for_each.
    steps. reflexivity.
  - unfold Float64.predict_future_profits. apply post_bind, post_gets.
    rewrite Ht. simpl negb. cbv iota.
    apply post_try, post_bind, post_load_data.
    rewrite L. apply post_bind, post_gets. rewrite R. simpl for_each.
    steps. reflexivity.
Qed.

Lemma forecast_for_no_periods_witness :
  Float64.predict_future_prices (-4) Float64.huge_harvests
  = (Ok (Some [], None), Float64.huge_harvests).
Proof.
  assert (-4 <= 0) as Hp by discriminate.
  assert (store Float64.huge_harvests <> []) as Hne by discriminate.
  apply (proj1 (forecast_for_no_periods Float64.huge_harvests (-4) Hp Hne)).
  reflexivity.
Defined.

(** ** X15 *)

(** X15: when the last of the requested dates lies after 9999-12-31,
    each trained forecast over a non-empty store returns a null result
    with an error message and leaves the state alone; the entries computed
    for the earlier dates are dropped. *)
Theorem forecast_past_the_calendar_is_an_error (s : State) (periods : Z) :
  store s <> [] -> 1 <= periods ->
  MAXORDINAL < toordinal (clock s) + 30 * periods ->
  (price_model_trained s = true ->
   exists msg,
     Float64.predict_future_prices periods s = (Ok (None, Some msg), s))
  /\ (profit_model_trained s = true ->
      exists msg,
        Float64.predict_future_profits periods s = (Ok (None, Some msg), s)).
Proof.
  intros Hne Hp Hmax. split; intros Ht.
  - destruct (float_prices_overflow s periods Ht Hne Hp Hmax) as [msg E].
    exists msg. rewrite <- E.
    rewrite (surjective_pairing (Float64.predict_future_prices periods s)).
    f_equal.
    apply (float_prices_reads periods s (fun _ s' => s' = s)). reflexivity.
  - destruct (float_profits_overflow s periods Ht Hne Hp Hmax) as [msg E].
    exists msg. rewrite <- E.
    rewrite (surjective_pairing (Float64.predict_future_profits periods s)).
    f_equal.
    apply (float_profits_reads periods s (fun _ s' => s' = s)). reflexivity.
Qed.

Lemma forecast_past_the_calendar_is_an_error_witness :
  exists msg,
    Float64.predict_future_profits 97201 Example.trained
    = (Ok (None, Some msg), Example.trained).
Proof.
  assert (store Example.trained <> []) as Hne by discriminate.
  assert (1 <= 97201) as Hp by discriminate.
  assert (MAXORDINAL < toordinal (clock Example.trained) + 30 * 97201) as Hmax
    by reflexivity.
  apply (proj2 (forecast_past_the_calendar_is_an_error Example.trained 97201
                  Hne Hp Hmax)).
  reflexivity.
Defined.

(** ** X16 *)

(** X16: the profit forecast of a fitted model whose mean features and
    scaled features are finite has one entry per period, dated 30, 60, ...
    days after the clock, and every entry carries the same profit: the
    fitted line at the scaled mean features of the last records, rounded
    to two places, with no clamp at zero. *)
Theorem profit_forecast_is_flat_and_unclamped (s : State) (sc : Scaler)
        (m : LinearRegression) (periods : Z) :
  profit_model_trained s = true -> store s <> [] ->
  profit_scaler s = Some sc -> profit_model s = Some m ->
  fitted_on 3 (Some sc) (Some m) = true ->
  Float64.finite_through (Some sc) (Float64.profit_inputs (store s)) = true ->
  valid_clock s -> toordinal (clock s) + 30 * periods <= MAXORDINAL ->
  exists l,
    Float64.predict_future_profits periods s = (Ok (Some l, None), s)
    /\ map Float64.profit_date l
       = map (fun i => strftime_Ymd (day_ahead s i)) (range1 periods)
    /\ Forall (fun p => Float64.predicted_profit p
                        = Float64.round2 (raw_profit sc m (store s))) l.
Proof.
  intros Ht Hne Hsc Hm Hfit Hfin Hclock Hmax.
  rewrite (float_profits_in_range s sc m periods) by assumption.
  eexists. split; [reflexivity|]. split.
  - rewrite map_map. reflexivity.
  - apply Forall_forall. intros p Hp. apply in_map_iff in Hp as (i & <- & _).
    reflexivity.
Qed.

Lemma profit_forecast_is_flat_and_unclamped_witness :
  exists l,
    Float64.predict_future_profits 2 Example.trained
    = (Ok (Some l, None), Example.trained)
    /\ Forall (fun p => Float64.predicted_profit p
                        = Float64.Finite (-5944751508129055 # 18014398509481984))
              l.
Proof.
  assert (store Example.trained <> []) as Hne by discriminate.
  assert (valid_clock Example.trained) as Hclock by (split; discriminate).
  assert (toordinal (clock Example.trained) + 30 * 2 <= MAXORDINAL) as Hmax
    by discriminate.
  assert (Float64.finite_through
            (Some {| mean_ := [5; 18; 180]%Q; scale_ := [1; 1; 1]%Q |})
            (Float64.profit_inputs (store Example.trained)) = true) as Hfin
    by (vm_compute; reflexivity).
  destruct (profit_forecast_is_flat_and_unclamped Example.trained
              {| mean_ := [5; 18; 180]%Q; scale_ := [1; 1; 1]%Q |}
              {| coef_ := [1; 2; 0]%Q; intercept_ := (-7 # 3)%Q |} 2
              eq_refl Hne eq_refl eq_refl eq_refl Hfin Hclock Hmax)
    as (l & E & _ & F).
  exists l. split; [exact E|].
  assert (Float64.round2
            (raw_profit {| mean_ := [5; 18; 180]%Q; scale_ := [1; 1; 1]%Q |}
               {| coef_ := [1; 2; 0]%Q; intercept_ := (-7 # 3)%Q |}
               (store Example.trained))
          = Float64.Finite (-5944751508129055 # 18014398509481984)) as V
    by (vm_compute; reflexivity).
  rewrite <- V. exact F.
Defined.

(** ** X17 *)

(** X17: the four queries change neither the data file nor the models:
    both forecasts, [get_historical_data] and [get_model_stats] return in
    the state they started from. *)
Theorem queries_leave_the_state (lib : Sklearn) (s : State) :
  (forall periods, snd (Float64.predict_future_prices periods s) = s)
  /\ (forall periods, snd (Float64.predict_future_profits periods s) = s)
  /\ (forall user limit, snd (get_historical_data user limit s) = s)
  /\ (forall user, snd (get_model_stats lib user s) = s).
Proof.
  repeat split.
  - intros. apply (float_prices_reads periods s (fun _ s' => s' = s)).
    reflexivity.
  - intros. apply (float_profits_reads periods s (fun _ s' => s' = s)).
    reflexivity.
  - intros. apply get_historical_data_total.
  - intros. apply get_model_stats_total.
Qed.

(** ** X18 *)

(** X18: both forecasts depend on the store through its last five records
    only: replacing the older records by any others gives the same
    result. *)
Theorem forecast_reads_the_last_five_records (s : State)
        (older older' recent : list Row) (periods : Z) :
  data_file s = Json (older ++ recent) -> length recent = 5%nat ->
  fst (Float64.predict_future_prices periods
         (set_data_file (Json (older' ++ recent)) s))
  = fst (Float64.predict_future_prices periods s)
  /\ fst (Float64.predict_future_profits periods
            (set_data_file (Json (older' ++ recent)) s))
     = fst (Float64.predict_future_profits periods s).
Proof.
  intros Hf H5.
  assert (store s = older ++ recent) as Hs by (unfold store; now rewrite Hf).
  split.
  - unfold Float64.predict_future_prices. rewrite !bind_gets.
    change (price_model_trained (set_data_file (Json (older' ++ recent)) s))
      with (price_model_trained s).
    destruct (negb (price_model_trained s)); [reflexivity|].
    unfold try_except. rewrite !bind_load_data.
    change (store (set_data_file (Json (older' ++ recent)) s))
      with (older' ++ recent).
    rewrite Hs, !len_app_five, !last_five by assumption.
    match goal with
    | |- fst (match ?m (set_data_file ?f s) with _ => _ end) = _ =>
        assert (file_blind m) as B by blind; rewrite (B f s)
    end.
    match goal with
    | |- context [fst (?m s)] => destruct (m s) as [[a|e] s1]
    end; reflexivity.
  - unfold Float64.predict_future_profits. rewrite !bind_gets.
    change (profit_model_trained (set_data_file (Json (older' ++ recent)) s))
      with (profit_model_trained s).
    destruct (negb (profit_model_trained s)); [reflexivity|].
    unfold try_except. rewrite !bind_load_data.
    change (store (set_data_file (Json (older' ++ recent)) s))
      with (older' ++ recent).
    rewrite Hs, !len_app_five, !last_five by assumption.
    match goal with
    | |- fst (match ?m (set_data_file ?f s) with _ => _ end) = _ =>
        assert (file_blind m) as B by blind; rewrite (B f s)
    end.
    match goal with
    | |- context [fst (?m s)] => destruct (m s) as [[a|e] s1]
    end; reflexivity.
Qed.

Lemma forecast_reads_the_last_five_records_witness :
  fst (Float64.predict_future_profits 3
         (set_data_file
            (Json ([Example.r4]
                   ++ [Example.r1; Example.r2; Example.r4; Example.r3;
                       Example.r1]))
            Scenario.nine_rows))
  = fst (Float64.predict_future_profits 3 Scenario.nine_rows).
Proof.
  apply (forecast_reads_the_last_five_records Scenario.nine_rows
           [Example.r3; Example.r3; Example.r2; Example.r1] [Example.r4]
           [Example.r1; Example.r2; Example.r4; Example.r3; Example.r1] 3);
    reflexivity.
Defined.

(** ** X19 *)

(** X19: [handle_add_to_ml] never raises; when a field is not a number
    or one of cost, revenue, price and harvest is not positive, it answers
    [success: false] and changes nothing. *)
Theorem handle_add_to_ml_rejects_without_effect (lib : Sklearn)
        (float : string -> res Q) (form : string -> option string) (user : Z) (s : State) :
  is_ok (fst (handle_add_to_ml lib float form user s)) = true
  /\ ((forall cost revenue profit price harvest,
         parsed float form cost revenue profit price harvest ->
         all_positive cost revenue price harvest = false) ->
      exists msg,
        handle_add_to_ml lib float form user s
        = (Ok {| success := false; reply_message := msg |}, s)).
Proof.
  split.
  - unfold handle_add_to_ml. apply try_except_ret_ok.
  - intros Hbad.
    destruct (form_float float form "total_cost") as [c|e] eqn:E1;
      [|apply handle_add_to_ml_unparsed; intros ? ? ? ? ? (H & _); congruence].
    destruct (form_float float form "total_revenue") as [r|e] eqn:E2;
      [|apply handle_add_to_ml_unparsed; intros ? ? ? ? ? (_ & H & _);
        congruence].
    destruct (form_float float form "net_profit") as [p|e] eqn:E3;
      [|apply handle_add_to_ml_unparsed; intros ? ? ? ? ? (_ & _ & H & _);
        congruence].
    destruct (form_float float form "market_price") as [m|e] eqn:E4;
      [|apply handle_add_to_ml_unparsed;
        intros ? ? ? ? ? (_ & _ & _ & H & _); congruence].
    destruct (form_float float form "harvest_amount") as [h|e] eqn:E5;
      [|apply handle_add_to_ml_unparsed;
        intros ? ? ? ? ? (_ & _ & _ & _ & H); congruence].
    assert (parsed float form c r p m h) as P by (unfold parsed; auto).
    rewrite (handle_add_to_ml_parsed lib float form user s c r p m h P).
    rewrite (Hbad c r p m h P). eexists. reflexivity.
Qed.

Lemma handle_add_to_ml_rejects_without_effect_witness :
  handle_add_to_ml Example.lib Scenario.float Scenario.zero_price_form 1
                   Example.four_rows
  = (Ok {| success := false; reply_message := "Invalid data provided" |},
     Example.four_rows)
  /\ exists msg,
       handle_add_to_ml Example.lib Scenario.float Scenario.garbled_form 1
                        Example.four_rows
       = (Ok {| success := false; reply_message := msg |}, Example.four_rows).
Proof.
  split; [reflexivity|].
  apply (handle_add_to_ml_rejects_without_effect Example.lib Scenario.float
           Scenario.garbled_form 1 Example.four_rows).
  intros cost revenue profit price harvest (_ & H & _). discriminate H.
Defined.

(** ** X20 *)

(** X20: when the five fields are numbers and cost, revenue, price and
    harvest are positive, [handle_add_to_ml] appends the record for the
    current user and answers [success: true] on a writable disk, and
    answers [success: false] on one that refuses the write.  The net
    profit is not validated. *)
Theorem handle_add_to_ml_stores_valid_data (lib : Sklearn)
        (float : string -> res Q) (form : string -> option string) (user : Z) (s : State)
        (cost revenue profit price harvest : Q) :
  parsed float form cost revenue profit price harvest ->
  all_positive cost revenue price harvest = true ->
  (disk s = Writable ->
   fst (handle_add_to_ml lib float form user s)
   = Ok {| success := true;
           reply_message := "Data successfully added to analysis" |}
   /\ store (snd (handle_add_to_ml lib float form user s))
      = store s ++ [new_row_of s user price harvest cost revenue profit])
  /\ (disk s <> Writable ->
      exists msg,
        fst (handle_add_to_ml lib float form user s)
        = Ok {| success := false; reply_message := msg |}).
Proof.
  intros P Hpos. rewrite (handle_add_to_ml_parsed lib float form user s _ _ _ _ _ P), Hpos.
  unfold try_except, bind. split; intros Hd.
  - destruct (add_user_data_writable lib s user price harvest cost revenue
                profit Hd) as (E & F & _).
    destruct (add_user_data lib user price harvest cost revenue profit s)
      as [r s']. simpl in E, F. subst r. simpl. split; [reflexivity|].
    unfold store at 1. now rewrite F.
  - destruct (add_user_data_unwritable lib s user price harvest cost revenue
                profit Hd) as (msg & E).
    destruct (add_user_data lib user price harvest cost revenue profit s)
      as [r s']. simpl in E. subst r. simpl. eauto.
Qed.

Lemma handle_add_to_ml_stores_valid_data_witness :
  fst (handle_add_to_ml Example.lib Scenario.float Scenario.good_form 2
                        Example.four_rows)
  = Ok {| success := true;
          reply_message := "Data successfully added to analysis" |}
  /\ len (store (snd (handle_add_to_ml Example.lib Scenario.float
                        Scenario.good_form 2 Example.four_rows))) = 5.
Proof.
  assert (parsed Scenario.float Scenario.good_form 120 60 (-60) 4 15) as P
    by (repeat split; reflexivity).
  destruct (handle_add_to_ml_stores_valid_data Example.lib Scenario.float
              Scenario.good_form 2 Example.four_rows 120 60 (-60) 4 15 P
              eq_refl) as [H _].
  destruct (H eq_refl) as [E St]. split; [exact E|]. rewrite St. reflexivity.
Defined.

(** ** X21 *)

(** X21: if cost, revenue, price and harvest are positive in every
    stored record, they are so after any request to [handle_add_to_ml]. *)
Theorem handle_add_to_ml_keeps_rows_positive (lib : Sklearn)
        (float : string -> res Q) (form : string -> option string) (user : Z) (s : State) :
  Forall positive_row (store s) ->
  Forall positive_row (store (snd (handle_add_to_ml lib float form user s))).
Proof.
  intros Hall.
  destruct (form_float float form "total_cost") as [c|e] eqn:E1;
    [|destruct (handle_add_to_ml_unparsed lib float form user s) as [msg ->];
      [intros ? ? ? ? ? (H & _); congruence|exact Hall]].
  destruct (form_float float form "total_revenue") as [r|e] eqn:E2;
    [|destruct (handle_add_to_ml_unparsed lib float form user s) as [msg ->];
      [intros ? ? ? ? ? (_ & H & _); congruence|exact Hall]].
  destruct (form_float float form "net_profit") as [p|e] eqn:E3;
    [|destruct (handle_add_to_ml_unparsed lib float form user s) as [msg ->];
      [intros ? ? ? ? ? (_ & _ & H & _); congruence|exact Hall]].
  destruct (form_float float form "market_price") as [m|e] eqn:E4;
    [|destruct (handle_add_to_ml_unparsed lib float form user s) as [msg ->];
      [intros ? ? ? ? ? (_ & _ & _ & H & _); congruence|exact Hall]].
  destruct (form_float float form "harvest_amount") as [h|e] eqn:E5;
    [|destruct (handle_add_to_ml_unparsed lib float form user s) as [msg ->];
      [intros ? ? ? ? ? (_ & _ & _ & _ & H); congruence|exact Hall]].
  assert (parsed float form c r p m h) as P by (unfold parsed; auto).
  rewrite (handle_add_to_ml_parsed lib float form user s c r p m h P).
  destruct (all_positive c r m h) eqn:Hpos; [|exact Hall].
  unfold all_positive in Hpos. rewrite !andb_true_iff, !gt_zero_spec in Hpos.
  unfold try_except, bind.
  destruct (disk s) eqn:Hd.
  - destruct (add_user_data_writable lib s user m h c r p Hd) as (E & F & _).
    destruct (add_user_data lib user m h c r p s) as [res s'].
    simpl in E, F. subst res. simpl. unfold store at 1. rewrite F.
    apply Forall_app. split; [exact Hall|]. constructor; [|constructor].
    unfold positive_row, new_row_of. simpl. tauto.
  - assert (post (add_user_data lib user m h c r p) s
              (fun res s' => data_file s' = data_file s
                             /\ exists e, res = Raise e)) as A.
    { unfold add_user_data.
      apply post_bind, post_load_data, post_bind, post_gets.
      apply post_bind, post_save_data. rewrite Hd. eauto. }
    unfold post in A.
    destruct (add_user_data lib user m h c r p s) as [res s'].
    simpl in A. destruct A as (F & e & ->). simpl.
    unfold store. rewrite F. exact Hall.
  - assert (post (add_user_data lib user m h c r p) s
              (fun res s' => data_file s' = Unreadable
                             /\ exists e, res = Raise e)) as A.
    { unfold add_user_data.
      apply post_bind, post_load_data, post_bind, post_gets.
      apply post_bind, post_save_data. rewrite Hd. eauto. }
    unfold post in A.
    destruct (add_user_data lib user m h c r p s) as [res s'].
    simpl in A. destruct A as (F & e & ->). simpl.
    unfold store. rewrite F. constructor.
Qed.

Lemma handle_add_to_ml_keeps_rows_positive_witness :
  Forall positive_row
    (store (snd (handle_add_to_ml Example.lib Scenario.float
                   Scenario.good_form 2 Example.four_rows))).
Proof.
  apply (handle_add_to_ml_keeps_rows_positive Example.lib Scenario.float
           Scenario.good_form 2 Example.four_rows).
  repeat constructor.
Defined.

(** ** X22 *)

(** X22: the analytics page is rendered for every state of the
    predictor and the disk, with or without the clear-data request: the
    failing [clear_user_data] is caught, and the four queries never
    raise. *)
Theorem analytics_always_renders (lib : Sklearn) (user : Z) (clear_data : bool)
        (s : State) :
  is_ok (fst (analytics lib user clear_data s)) = true.
Proof.
  pose proof (analytics_post lib user clear_data s (fun _ _ => True)) as H.
  unfold post in H.
  destruct H as (page & s1 & -> & _); [auto| |reflexivity].
  intros _. destruct (fst (clear_user_data lib user s)); exact I.
Qed.

(** ** X23 *)

(** X23: the clear-data request on a writable disk renders the success
    notice, an empty history and the no-data statistics; on a disk that
    refuses the write it renders the error notice. *)
Theorem analytics_after_clear_is_empty (lib : Sklearn) (user : Z) (s : State) :
  (disk s = Writable ->
   exists page,
     fst (analytics lib user true s) = Ok page
     /\ flashed page = Some "All your data has been cleared successfully!"%string
     /\ page_historical_data page = []
     /\ total_data_points (page_stats page) = 0
     /\ message (page_stats page) = Some "No data available"%string)
  /\ (disk s <> Writable ->
      exists page,
        fst (analytics lib user true s) = Ok page
        /\ flashed page = Some "Error clearing data. Please try again."%string).
Proof.
  split; intros Hd.
  - pose proof (analytics_post lib user true s
      (fun fl s1 => fl = Some "All your data has been cleared successfully!"%string
                    /\ filter_user (Some user) (store s1) = [])) as H.
    unfold post in H.
    destruct H as (page & s1 & E & (F & Hnone) & St & Hi & _);
      [discriminate| |].
    + intros _. destruct (clear_user_data_writable lib s user Hd) as (R & F & _).
      rewrite R. split; [reflexivity|]. unfold store. rewrite F.
      apply filter_user_others_same.
    + exists page. split; [exact E|]. split; [exact F|].
      rewrite (get_historical_data_empty _ _ _ Hnone) in Hi.
      rewrite (get_model_stats_no_data lib _ _ Hnone) in St.
      simpl in Hi, St. injection Hi as <-. injection St as <-. auto.
  - pose proof (analytics_post lib user true s
      (fun fl s1 => fl = Some "Error clearing data. Please try again."%string))
      as H.
    unfold post in H.
    destruct H as (page & s1 & E & F & _); [discriminate| |].
    + intros _. destruct (clear_user_data_unwritable lib s user Hd) as (msg & R).
      rewrite R. reflexivity.
    + exists page. auto.
Qed.

Lemma analytics_after_clear_is_empty_witness :
  exists page,
    fst (analytics Example.lib 1 true Example.read_only) = Ok page
    /\ flashed page = Some "Error clearing data. Please try again."%string.
Proof.
  apply (proj2 (analytics_after_clear_is_empty Example.lib 1
                  Example.read_only)).
  discriminate.
Defined.

(** ** X24 *)

(** X24: [weather_code_to_text] and [weather_code_to_icon] know the same
    codes; a known code has a text other than [Unknown] and one of ten
    icons, an unknown code gets [Unknown] and the [clear-sky] icon. *)
Theorem weather_codes_have_text_and_icon (code : Z) :
  (In code (map fst text_mapping) <-> In code (map fst icon_mapping))
  /\ (In code (map fst text_mapping) ->
      weather_code_to_text code <> "Unknown"%string
      /\ In (weather_code_to_icon code)
            ["clear-sky"; "mainly-clear"; "partly-cloudy"; "overcast"; "fog";
             "light-rain"; "moderate-rain"; "heavy-rain"; "snow";
             "thunderstorm"]%string)
  /\ (~ In code (map fst text_mapping) ->
      weather_code_to_text code = "Unknown"%string
      /\ weather_code_to_icon code = "clear-sky"%string).
Proof.
  assert (map fst icon_mapping = map fst text_mapping) as K by reflexivity.
  split; [rewrite K; tauto|]. split.
  - intros H. split.
    + pose proof (dict_get_found text_mapping code "Unknown" H) as F.
      unfold weather_code_to_text. intros E. rewrite E in F.
      simpl in F. repeat (destruct F as [F|F]; [discriminate F|]). exact F.
    + rewrite <- K in H.
      pose proof (dict_get_found icon_mapping code "clear-sky" H) as F.
      unfold weather_code_to_icon.
      revert F. generalize (dict_get icon_mapping code "clear-sky").
      intros icon F. simpl in F.
      repeat (destruct F as [<-|F]; [simpl; tauto|]). destruct F.
  - intros H. split; [now apply dict_get_default|].
    apply dict_get_default. now rewrite K.
Qed.

(** ** X25 *)

(** X25: the scenario of three insertions and a clear: from an empty
    store, after the first and the second insertion both models report
    Untrained; after the third the store holds the three records and the
    price model is trained exactly when the fit succeeds; after clearing
    the user both models report Untrained again, the store is empty and
    the history is empty. *)
Theorem three_inserts_then_clear (lib : Sklearn) (s : State) (user : Z)
        (t1 t2 t3 : datetime) (v1 v2 v3 : Q * Q * Q * Q * Q) :
  disk s = Writable -> store s = [] ->
  let s1 := submit lib t1 user v1 s in
  let s2 := submit lib t2 user v2 s1 in
  let s3 := submit lib t3 user v3 s2 in
  let s4 := snd (clear_user_data lib user s3) in
  reports_untrained s1 /\ reports_untrained s2
  /\ store s3 = [submitted t1 user v1; submitted t2 user v2;
                 submitted t3 user v3]
  /\ (price_model_trained s3 = true <->
      fit_succeeds lib (set_data_file (data_file s3) (at_time t3 s2)))
  /\ reports_untrained s4 /\ store s4 = []
  /\ forall limit, fst (get_historical_data (Some user) limit s4) = Ok [].
Proof.
  intros Hd Hs s1 s2 s3 s4.
  destruct (submit_state lib t1 user v1 s Hd) as (S1 & D1 & E1).
  destruct (submit_state lib t2 user v2 s1 D1) as (S2 & D2 & E2).
  destruct (submit_state lib t3 user v3 s2 D2) as (S3 & D3 & E3).
  destruct (clear_user_data_state lib s3 user D3) as (S4 & _ & _ & E4).
  fold s1 in S1, E1, S2, E2. fold s2 in S2, E2, S3, E3. fold s3 in S3, E3, S4, E4.
  fold s4 in S4, E4. rewrite Hs in S1. simpl in S1. rewrite S1 in S2, E2.
  simpl in S2. rewrite S2 in S3, E3. simpl in S3.
  assert (store s4 = []) as S4'.
  { rewrite S4, S3. unfold others, submitted.
    destruct v1 as [[[[? ?] ?] ?] ?], v2 as [[[[? ?] ?] ?] ?],
             v3 as [[[[? ?] ?] ?] ?]. simpl. now rewrite Z.eqb_refl. }
  assert (reports_untrained s1) as R1.
  { rewrite E1. apply small_store_untrained. rewrite Hs. reflexivity. }
  assert (reports_untrained s2) as R2.
  { rewrite E2. apply small_store_untrained. reflexivity. }
  assert (reports_untrained s4) as R4.
  { rewrite E4. apply small_store_untrained. rewrite S4 in S4'.
    simpl. rewrite S4'. reflexivity. }
  assert (data_file s3 = Json
            [submitted t1 user v1; submitted t2 user v2; submitted t3 user v3])
    as F.
  { rewrite E3. apply _train_models_frame. }
  refine (conj R1 (conj R2 (conj S3 (conj _ (conj R4 (conj S4' _)))))).
  - rewrite F. rewrite E3. apply _train_models_flags.
  - intros limit. rewrite get_historical_data_empty; [reflexivity|].
    now rewrite S4'.
Qed.

Lemma three_inserts_then_clear_witness :
  reports_untrained
    (submit Example.lib Example.today 1 (5, 10, 100, 50, -50)%Q Scenario.fresh)
  /\ store
       (snd (clear_user_data Example.lib 1
          (submit Example.lib Example.today 1 (7, 30, 300, 210, -90)%Q
             (submit Example.lib Example.today 1 (6, 20, 200, 120, -80)%Q
                (submit Example.lib Example.today 1 (5, 10, 100, 50, -50)%Q
                   Scenario.fresh))))) = [].
Proof.
  destruct (three_inserts_then_clear Example.lib Scenario.fresh 1
              Example.today Example.today Example.today
              (5, 10, 100, 50, -50)%Q (6, 20, 200, 120, -80)%Q
              (7, 30, 300, 210, -90)%Q eq_refl eq_refl)
    as (R1 & _ & _ & _ & _ & S4 & _).
  split; [exact R1|exact S4].
Defined.
